(** * specviz: the line-list table model, its sort comparator and the
      wavelength-range dialog logic

    A shallow embedding of the computational core of
    [specviz/widgets/linelists_window.py]:

    - the colour resolution performed by [LineListTableModel.__init__]
      over the [ID_COLORS] palette;
    - the table model itself ([__init__], [rowCount], [columnCount],
      [data], [headerData]);
    - the comparator [SortModel.lessThan];
    - the range logic of [LineListsWindow._get_range_from_textfields] and
      [LineListsWindow._compute_nlines_in_waverange].

    Python exceptions are modelled by the [result] monad, Python list
    indexing (with its negative indices) by [py_index], and the line list
    object shared between the caller and the table model by a heap of
    line lists addressed by locations. *)

From Stdlib Require Import ZArith List String Ascii Bool Lia QArith.
From stdpp Require Import base tactics option list gmap strings pretty.

Local Open Scope string_scope.
Local Open Scope list_scope.
Local Open Scope Z_scope.

(** ** Python runtime: exceptions, sequencing, list indexing *)

Module Py.

Inductive exn : Set :=
  | IndexError
  | KeyError
  | ValueError
  | TypeError
  | AttributeError
  | UnitConversionError.

Inductive result (A : Type) : Type :=
  | Ok (a : A)
  | Raise (e : exn).

Arguments Ok {A} a.
Arguments Raise {A} e.

Definition bind {A B : Type} (m : result A) (k : A -> result B) : result B :=
  match m with
  | Ok a => k a
  | Raise e => Raise e
  end.

(** [try: body  except: handler] with a bare [except] clause. *)
Definition try_except {A : Type} (body : result A) (handler : result A)
  : result A :=
  match body with
  | Ok a => Ok a
  | Raise _ => handler
  end.

Definition raises {A : Type} (m : result A) : Prop :=
  exists e, m = Raise e.

Definition len {A : Type} (l : list A) : Z := Z.of_nat (length l).

(** [l[i]] on a Python list: indices [0 .. len-1] count from the front,
    indices [-len .. -1] count from the back, anything else raises
    [IndexError]. *)
Definition py_index {A : Type} (l : list A) (i : Z) : result A :=
  let j := if i <? 0 then i + len l else i in
  if (j <? 0) || (len l <=? j) then Raise IndexError
  else match l !! Z.to_nat j with
       | Some a => Ok a
       | None => Raise IndexError
       end.

(** [for x in xs: st = body st x], where the body may raise. *)
Fixpoint for_each {S A : Type} (body : S -> A -> result S) (xs : list A)
  (st : S) : result S :=
  match xs with
  | [] => Ok st
  | x :: xs' => bind (body st x) (for_each body xs')
  end.

End Py.

Import Py.

#[global] Instance result_ret : MRet result := @Ok.
#[global] Instance result_bind : MBind result :=
  fun A B k m => bind m k.
#[global] Instance result_fmap : FMap result :=
  fun A B f m => bind m (fun a => Ok (f a)).

(** ** Qt colours *)

Module Qt.

(** The members of [Qt.GlobalColor] that the palette uses. *)
Inductive GlobalColor : Set :=
  | black | red | green | blue | cyan | magenta
  | darkRed | darkGreen | darkBlue.

Definition GlobalColor_eqb (a b : GlobalColor) : bool :=
  match a, b with
  | black, black | red, red | green, green | blue, blue | cyan, cyan
  | magenta, magenta | darkRed, darkRed | darkGreen, darkGreen
  | darkBlue, darkBlue => true
  | _, _ => false
  end.

Definition channel_ok (z : Z) : bool := (0 <=? z) && (z <=? 255).

(** A [QColor]: [red()], [green()] and [blue()] return integers in
    [0 .. 255]. *)
Record QColor : Set := mkQColor {
  qred : Z;
  qgreen : Z;
  qblue : Z;
  qchannels : channel_ok qred && channel_ok qgreen && channel_ok qblue = true
}.

Definition qRgb (r g b : Z)
  (H : channel_ok r && channel_ok g && channel_ok b = true) : QColor :=
  mkQColor r g b H.

(** [QColor(c)] for a global colour [c], with Qt's predefined values. *)
Definition QColor_of_global (c : GlobalColor) : QColor :=
  match c with
  | black => qRgb 0 0 0 eq_refl
  | red => qRgb 255 0 0 eq_refl
  | green => qRgb 0 255 0 eq_refl
  | blue => qRgb 0 0 255 eq_refl
  | cyan => qRgb 0 255 255 eq_refl
  | magenta => qRgb 255 0 255 eq_refl
  | darkRed => qRgb 128 0 0 eq_refl
  | darkGreen => qRgb 0 128 0 eq_refl
  | darkBlue => qRgb 0 0 128 eq_refl
  end.

Inductive ItemDataRole : Set := DisplayRole | ToolTipRole | EditRole.

Inductive Orientation : Set := Horizontal | Vertical.

End Qt.

(** ** The palette and the colour resolution of the table model *)

(** [ID_COLORS], a dict, as its items in insertion order. *)
Definition ID_COLORS : list (string * Qt.GlobalColor) :=
  [ ("black", Qt.black);
    ("red", Qt.red);
    ("green", Qt.green);
    ("blue", Qt.blue);
    ("cyan", Qt.cyan);
    ("magenta", Qt.magenta);
    ("dark red", Qt.darkRed);
    ("dark green", Qt.darkGreen);
    ("dark blue", Qt.darkBlue) ].

(** The loop variable [result] starts as the cell itself and is then
    overwritten by members of [Qt.GlobalColor]. *)
Inductive color_ref : Set :=
  | RefCell (cell : Qt.QColor)
  | RefGlobal (g : Qt.GlobalColor).

(** [value == result] for a palette value.  When [result] is still the
    cell, every palette colour is at distance at least 100000 from it, so
    the two differ. *)
Definition value_eq (value : Qt.GlobalColor) (result : color_ref) : bool :=
  match result with
  | RefGlobal g => Qt.GlobalColor_eqb value g
  | RefCell _ => false
  end.

(** [abs(orig_rgb.red() - r) + abs(orig_rgb.green() - g)
     + abs(orig_rgb.blue() - b)] *)
Definition dist (orig_rgb : Qt.QColor) (r g b : Z) : Z :=
  Z.abs (Qt.qred orig_rgb - r) + Z.abs (Qt.qgreen orig_rgb - g)
  + Z.abs (Qt.qblue orig_rgb - b).

(** One iteration of [for color_name, orig_color in ID_COLORS.items()]
    on the loop state [(min_dist, result)]. *)
Definition closest_step (r g b : Z) (st : Z * color_ref)
  (item : string * Qt.GlobalColor) : Z * color_ref :=
  let '(min_dist, result) := st in
  let orig_color := item.2 in
  let orig_rgb := Qt.QColor_of_global orig_color in
  let d := dist orig_rgb r g b in
  if d <? min_dist then (d, RefGlobal orig_color) else (min_dist, result).

Definition closest_loop (r g b : Z) (items : list (string * Qt.GlobalColor))
  (st : Z * color_ref) : Z * color_ref :=
  fold_left (closest_step r g b) items st.

(** The [isinstance(cell, QColor)] branch of [__init__]: the palette key
    stored for a colour cell. *)
Definition resolve_color (cell : Qt.QColor) : result string :=
  let r := Qt.qred cell in
  let g := Qt.qgreen cell in
  let b := Qt.qblue cell in
  let min_dist := 100000 in
  let result := RefCell cell in
  let '(_, result) := closest_loop r g b ID_COLORS (min_dist, result) in
  py_index
    (map fst (filter (fun kv => value_eq kv.2 result) ID_COLORS)) 0.

(** ** Python floats

    [float()], the comparisons on floats and [str()] of a float are the
    interpreter's; the development is parametric in them.  [float s]
    raises (a [ValueError]) when [s] is not a numeric literal. *)

Class PyFloat : Type := {
  pyfloat : Type;
  float : string -> result pyfloat;
  float_lt : pyfloat -> pyfloat -> bool;
  float_ne : pyfloat -> pyfloat -> bool;
  str_float : pyfloat -> string
}.

(** ** Values held by the table model and by the line list *)

(** A [QVariant]: invalid ([QVariant()]), or wrapping a Python string. *)
Inductive QVariant : Set :=
  | QInvalid
  | QString (s : string).

Record QModelIndex : Set := mkIndex {
  row : Z;
  column : Z
}.

Section LineLists.

Context `{PyFloat}.

(** A cell of a line list row. *)
Inductive cell : Type :=
  | Numeric (x : pyfloat)
  | Text (s : string)
  | Color (c : Qt.QColor).

(** [str(cell)] for a cell that is not a [QColor]. *)
Definition str_cell (c : cell) : string :=
  match c with
  | Numeric x => str_float x
  | Text s => s
  | Color _ => ""
  end.

(** The line list object, as far as this module uses it: iteration over
    its rows, [colnames], [columns[i].unit] (by its string form, [None]
    for a column without unit), [tooltips] ([None], or a list whose
    entries are texts or [None]), [name] and [meta['comments']]
    ([None] when [meta] has no key 'comments'). *)
Record LineList : Type := mkLineList {
  name : string;
  rows : list (list cell);
  colnames : list string;
  units : list (option string);
  tooltips : option (list (option string));
  meta_comments : option (list string)
}.

(** [str(x)] for [x] a unit or [None]. *)
Definition str_unit (u : option string) : string :=
  match u with
  | Some s => s
  | None => "None"
  end.

(** The values that [headerData] binds to [result] before [str(result)]:
    a column's unit, an entry of the tooltips list, or a text. *)
Inductive tooltip_value : Set :=
  | UnitValue (u : option string)
  | EntryValue (t : option string)
  | TextValue (s : string).

Definition str_value (v : tooltip_value) : string :=
  match v with
  | UnitValue u => str_unit u
  | EntryValue (Some s) => s
  | EntryValue None => "None"
  | TextValue s => s
  end.

(** Truth value of [linelist.tooltips]: [None] and the empty list are
    false. *)
Definition tooltips_truthy (t : option (list (option string))) : bool :=
  match t with
  | Some (_ :: _) => true
  | _ => false
  end.

(** Line lists are mutable objects shared by reference. *)
Definition loc : Set := nat.
Definition heap : Type := loc -> LineList.

Definition heap_set (h : heap) (l : loc) (ll : LineList) : heap :=
  fun l' => if Nat.eqb l' l then ll else h l'.

(** ** LineListTableModel *)

Record LineListTableModel : Type := mkModel {
  _linelist : loc;
  _nrows : Z;
  _ncols : Z;
  _row_cells : list (list QVariant)
}.

(** The body of [for rindex in range(len(row))]. *)
Definition init_cell (row : list cell) (cells : list QVariant) (rindex : Z)
  : result (list QVariant) :=
  c ← py_index row rindex;
  match c with
  | Color qc =>
      key ← resolve_color qc;
      mret (cells ++ [QString key])
  | _ => mret (cells ++ [QString (str_cell c)])
  end.

(** The body of [for row in self._linelist].  The second component of the
    state records every index at which [self._row_cells] is read. *)
Definition init_row (st : LineListTableModel * list Z) (row : list cell)
  : result (LineListTableModel * list Z) :=
  let '(self, probes) := st in
  cells ← for_each (init_cell row) (seqZ 0 (len row)) [];
  let row_cells := _row_cells self ++ [cells] in
  let nrows := len row_cells in
  first ← py_index row_cells 0;
  mret (mkModel (_linelist self) nrows (len first) row_cells, probes ++ [0]).

Definition init_traced (h : heap) (linelist : loc)
  : result (LineListTableModel * list Z) :=
  let self := mkModel linelist 0 0 [] in
  for_each init_row (rows (h linelist)) (self, []).

(** [LineListTableModel.__init__] *)
Definition __init__ (h : heap) (linelist : loc) : result LineListTableModel :=
  st ← init_traced h linelist;
  mret st.1.

(** Methods receive the heap, as any Python method may read the objects
    reachable from [self]. *)
Definition rowCount (h : heap) (self : LineListTableModel) : Z :=
  _nrows self.

Definition columnCount (h : heap) (self : LineListTableModel) : Z :=
  _ncols self.

Definition role_is (role : option Qt.ItemDataRole) (r : Qt.ItemDataRole)
  : bool :=
  match role, r with
  | Some Qt.DisplayRole, Qt.DisplayRole
  | Some Qt.ToolTipRole, Qt.ToolTipRole
  | Some Qt.EditRole, Qt.EditRole => true
  | _, _ => false
  end.

Definition data (h : heap) (self : LineListTableModel) (index : QModelIndex)
  (role : option Qt.ItemDataRole) : result QVariant :=
  if negb (role_is role Qt.DisplayRole) then mret QInvalid
  else
    r ← py_index (_row_cells self) (row index);
    py_index r (column index).

(** What [headerData] returns: a Python string, or whatever the inherited
    [QAbstractTableModel.headerData] returns. *)
Inductive header : Set :=
  | HeaderText (s : string)
  | HeaderInherited.

Definition is_horizontal (o : Qt.Orientation) : bool :=
  match o with
  | Qt.Horizontal => true
  | Qt.Vertical => false
  end.

Section HeaderData.

(** The column-name constants of [specviz.core.linelist]. *)
Variables WAVELENGTH_COLUMN ERROR_COLUMN : string.

Definition headerData (h : heap) (self : LineListTableModel) (section : Z)
  (orientation : Qt.Orientation) (role : option Qt.ItemDataRole)
  : result header :=
  let linelist := h (_linelist self) in
  if role_is role Qt.DisplayRole && is_horizontal orientation then
    colname ← py_index (colnames linelist) section;
    mret (HeaderText colname)
  else if role_is role Qt.ToolTipRole && is_horizontal orientation then
    colname ← py_index (colnames linelist) section;
    result ←
      (if bool_decide (colname ∈ [WAVELENGTH_COLUMN; ERROR_COLUMN]) then
         UnitValue <$> py_index (units linelist) section
       else if tooltips_truthy (tooltips linelist) then
         EntryValue <$> py_index (default [] (tooltips linelist)) section
       else mret (TextValue ""));
    mret (HeaderText (str_value result))
  else mret HeaderInherited.

End HeaderData.

(** ** SortModel *)

(** Python-level view of the value returned by [QModelIndex.data()]:
    an invalid variant is [None]. *)
Definition float_of_data (d : QVariant) : result pyfloat :=
  match d with
  | QString s => float s
  | QInvalid => Raise TypeError
  end.

Definition str_of_data (d : QVariant) : string :=
  match d with
  | QString s => s
  | QInvalid => "None"
  end.

(** The [try ... except] of [SortModel.lessThan] on the two data values. *)
Definition lessThan_data (left_data right_data : QVariant) : result bool :=
  try_except
    (l ← float_of_data left_data;
     r ← float_of_data right_data;
     mret (float_lt l r))
    (mret (String.ltb (str_of_data left_data) (str_of_data right_data))).

(** [SortModel.lessThan]; [left.data()] is the source model's [data] at
    the display role. *)
Definition lessThan (h : heap) (source : LineListTableModel)
  (left right : QModelIndex) : result bool :=
  left_data ← data h source left (Some Qt.DisplayRole);
  right_data ← data h source right (Some Qt.DisplayRole);
  lessThan_data left_data right_data.

End LineLists.

(** ** LineListsWindow: the wavelength-range dialog *)

Definition NLINES_WARN : Z := 150.

(** A [QLineEdit] with its validator's verdict on the current text. *)
Record QLineEdit : Set := mkLineEdit {
  text : string;
  hasAcceptableInput : bool
}.

(** A [QLabel].  The dialog code mutates the label it is handed and
    returns that same object; the functions below return its new state. *)
Record QLabel : Set := mkLabel {
  label_text : string;
  styleSheet : string
}.

Definition setText (label : QLabel) (s : string) : QLabel :=
  mkLabel s (styleSheet label).

Definition setStyleSheet (label : QLabel) (s : string) : QLabel :=
  mkLabel (label_text label) s.

Section RangeDialog.

Context `{PyFloat}.

(** [astropy.units.Quantity(value, unit)] *)
Record Quantity : Type := mkQuantity {
  value : pyfloat;
  unit : string
}.

Definition waverange : Type := option Quantity * option Quantity.

Record PlotDataItem : Set := mkPlotDataItem {
  spectral_axis_unit : string
}.

(** [self.plot_window.listDataItems()] is all the window's state that the
    range logic reads. *)
Record LineListsWindow : Set := mkWindow {
  listDataItems : list PlotDataItem
}.

(** Supplied by [specviz.core.linelist]: the wavelength column name and
    the line list's own [extract_range], which may raise. *)
Variable WAVELENGTH_COLUMN : string.
Variable extract_range : LineList -> waverange -> result LineList.

Definition _get_range_from_textfields (self : LineListsWindow)
  (min_text max_text : QLineEdit) : result waverange :=
  if hasAcceptableInput min_text && hasAcceptableInput max_text then
    amin ← float (text min_text);
    amax ← float (text max_text);
    if float_ne amax amin then
      item ← py_index (listDataItems self) 0;
      let units := spectral_axis_unit item in
      mret (Some (mkQuantity amin units), Some (mkQuantity amax units))
    else mret (None, None)
  else mret (None, None).

(** [table[name].data] on a line list: the cells of the named column, one
    per row; [KeyError] when there is no such column. *)
Definition column_data (table : LineList) (colname : string)
  : result (list cell) :=
  match list_find (String.eqb colname) (colnames table) with
  | None => Raise KeyError
  | Some (i, _) =>
      for_each (fun acc r => c ← py_index r (Z.of_nat i); mret (acc ++ [c]))
        (rows table) []
  end.

Definition is_present (bound : option Quantity) : bool :=
  match bound with
  | Some _ => true
  | None => false
  end.

(** [_compute_nlines_in_waverange] from the point where the range
    [(amin, amax)] is known. *)
Definition nlines_in_waverange (line_list : LineList) (r : waverange)
  (label : QLabel) : result QLabel :=
  let '(amin, amax) := r in
  if is_present amin || is_present amax then
    extracted ← extract_range line_list (amin, amax);
    wavelengths ← column_data extracted WAVELENGTH_COLUMN;
    let nlines := len wavelengths in
    let label := setText label (pretty nlines) in
    let color := if nlines <? NLINES_WARN then "black" else "red" in
    mret (setStyleSheet label ("color:" +:+ color))
  else mret label.

Definition _compute_nlines_in_waverange (self : LineListsWindow)
  (line_list : LineList) (min_text max_text : QLineEdit) (label : QLabel)
  : result QLabel :=
  r ← _get_range_from_textfields self min_text max_text;
  nlines_in_waverange line_list r label.

End RangeDialog.

(** ** A reference instance of [PyFloat]

    Plain decimal literals ([digits], [digits.digits], with an optional
    sign) read as exact rationals.  It agrees with [float()] on literals
    whose value a double represents exactly, and serves to run the
    definitions above on concrete inputs. *)

Module Decimal.

Definition digit_of (c : ascii) : option Z :=
  let n := Z.of_N (N_of_ascii c) in
  if (48 <=? n) && (n <=? 57) then Some (n - 48) else None.

(** Digits read so far as an integer, and the number of them that came
    after the point ([None] before the point). *)
Fixpoint scan (s : string) (acc : Z) (frac : option nat) (seen : bool)
  : option (Z * nat) :=
  match s with
  | EmptyString => if seen then Some (acc, default 0%nat frac) else None
  | String c s' =>
      match digit_of c with
      | Some d => scan s' (10 * acc + d) (S <$> frac) true
      | None =>
          if Ascii.eqb c "."%char then
            match frac with
            | None => scan s' acc (Some 0%nat) seen
            | Some _ => None
            end
          else None
      end
  end.

Definition unsigned (s : string) : option Q :=
  '(m, k) ← scan s 0 None false;
  Some (Qmake m (Z.to_pos (10 ^ Z.of_nat k))).

Definition parse (s : string) : result Q :=
  let r :=
    match s with
    | String "-"%char s' => Qopp <$> unsigned s'
    | String "+"%char s' => unsigned s'
    | _ => unsigned s
    end in
  match r with
  | Some q => Ok q
  | None => Raise ValueError
  end.

Definition lt (a b : Q) : bool := negb (Qle_bool b a).
Definition ne (a b : Q) : bool := negb (Qeq_bool a b).

(** Integers print as [n.0]; other values are not needed by the examples
    and print as a fraction. *)
Definition str (a : Q) : string :=
  let a := Qred a in
  if Pos.eqb (Qden a) 1 then pretty (Qnum a) +:+ ".0"
  else pretty (Qnum a) +:+ "/" +:+ pretty (Zpos (Qden a)).

#[global] Instance decimal_float : PyFloat := {
  pyfloat := Q;
  float := parse;
  float_lt := lt;
  float_ne := ne;
  str_float := str
}.

End Decimal.

(** ** Auxiliary definitions used in the statements *)

(** Distance from a cell's colour to a palette entry. *)
Definition palette_dist (cell : Qt.QColor) (kv : string * Qt.GlobalColor)
  : Z :=
  dist (Qt.QColor_of_global kv.2) (Qt.qred cell) (Qt.qgreen cell)
    (Qt.qblue cell).

(** The name stored for a colour cell, as a total function. *)
Definition color_name (c : Qt.QColor) : string :=
  match resolve_color c with
  | Ok key => key
  | Raise _ => ""
  end.

(** The display text that [__init__] stores for a cell, and the stored
    image of a row. *)
Definition display_text `{PyFloat} (c : cell) : string :=
  match c with
  | Color qc => color_name qc
  | _ => str_cell c
  end.

Definition render_row `{PyFloat} (r : list cell) : list QVariant :=
  map (fun c => QString (display_text c)) r.

(** Lexicographic order on texts, by character code: a proper prefix
    comes first, otherwise the first differing characters decide. *)
Inductive lex_lt : string -> string -> Prop :=
  | lex_lt_prefix c s : lex_lt EmptyString (String c s)
  | lex_lt_head c1 c2 s1 s2 :
      (N_of_ascii c1 < N_of_ascii c2)%N ->
      lex_lt (String c1 s1) (String c2 s2)
  | lex_lt_tail c s1 s2 :
      lex_lt s1 s2 -> lex_lt (String c s1) (String c s2).

(** A table as the line list core hands them out: every row has one cell
    per column name. *)
Definition rectangular `{PyFloat} (table : LineList) : Prop :=
  Forall (fun r => length r = length (colnames table)) (rows table).


(** The counts agree with the stored rows. *)
Definition counts_frozen `{PyFloat} (self : LineListTableModel) : Prop :=
  _nrows self = len (_row_cells self)
  /\ _ncols self = match _row_cells self with
                   | [] => 0
                   | first :: _ => len first
                   end.

(** ** Concrete line lists used as examples *)

Module Examples.

Import Decimal.

Definition two_by_one : LineList :=
  mkLineList "Plotted" [[Text "a"; Text "b"]] ["Species"; "Origin"]
    [None; None] None None.

Definition ragged : LineList :=
  mkLineList "Plotted" [[Text "a"; Text "b"]; [Text "c"]]
    ["Species"; "Origin"] [None; None] None None.

Definition empty : LineList :=
  mkLineList "Atomic" [] ["Wavelength"; "Species"]
    [Some "Angstrom"; None] (Some [Some "rest wavelength"; Some "ion"])
    (Some ["Atomic lines"]).

Definition three_lines : LineList :=
  mkLineList "Atomic"
    [[Numeric (inject_Z 4500); Text "H I"]; [Numeric (inject_Z 6000); Text "He I"];
     [Numeric (inject_Z 3000); Text "O II"]]
    ["Wavelength"; "Species"] [Some "Angstrom"; None]
    (Some [Some "rest wavelength"; Some "ion"]) (Some ["Atomic lines"]).

(** The lines of [three_lines] at 4000 and above. *)
Definition two_lines : LineList :=
  mkLineList "Atomic"
    [[Numeric (inject_Z 4500); Text "H I"];
     [Numeric (inject_Z 6000); Text "He I"]]
    ["Wavelength"; "Species"] [Some "Angstrom"; None]
    (Some [Some "rest wavelength"; Some "ion"]) (Some ["Atomic lines"]).

Definition from_4000 : waverange :=
  (Some (mkQuantity (inject_Z 4000) "Angstrom"), None).


(** The list of three lines with a tooltip for its first column only. *)
Definition short_tooltips : LineList :=
  mkLineList "Atomic" (rows three_lines) ["Wavelength"; "Species"]
    [Some "Angstrom"; None] (Some [Some "rest wavelength"])
    (Some ["Atomic lines"]).

Definition store (ll : LineList) : heap := fun _ => ll.

Definition window : LineListsWindow :=
  mkWindow [mkPlotDataItem "Angstrom"].

Definition field_100 : QLineEdit := mkLineEdit "100.0" true.

Definition stale_label : QLabel := mkLabel "1" "color:black".

(** The table model of [three_lines], held at location 0. *)
Definition model : LineListTableModel :=
  mkModel 0%nat 3 2 (map render_row (rows three_lines)).

(** A range extraction for the examples: it keeps the rows whose first
    cell is a wavelength within the present bounds. *)
Definition in_bounds (r : waverange) (c : list cell) : bool :=
  match c with
  | Numeric x :: _ =>
      match r.1 with Some q => Qle_bool (value q) x | None => true end
      && match r.2 with Some q => Qle_bool x (value q) | None => true end
  | _ => false
  end.

Definition extract_range (ll : LineList) (r : waverange) : result LineList :=
  Ok (mkLineList (name ll) (List.filter (in_bounds r) (rows ll))
        (colnames ll) (units ll) (tooltips ll) (meta_comments ll)).

End Examples.

(** ** Tabbed panes of the line list window *)

Definition PLOTTED : string := "Plotted".

(** A [QTabWidget] as the list of its tabs, each a label and a page.
    An index is valid from 0 to [count - 1]; [removeTab] ignores any other
    index and [insertTab] appends at any other index. *)
Module QTabWidget.

Section Tabs.

Context {W : Type}.
Implicit Types (tabs : list (string * W)) (index : Z).

Definition count tabs : Z := len tabs.

Definition validIndex tabs index : bool :=
  (0 <=? index) && (index <? count tabs).

Definition removeTab tabs index : list (string * W) :=
  if validIndex tabs index then delete (Z.to_nat index) tabs else tabs.

Definition insertTab tabs index (page : W) (label : string)
  : list (string * W) :=
  if validIndex tabs index then
    take (Z.to_nat index) tabs ++ (label, page) :: drop (Z.to_nat index) tabs
  else tabs ++ [(label, page)].

Definition addTab tabs (page : W) (label : string) : list (string * W) :=
  insertTab tabs (-1) page label.

Definition tabText tabs index : string :=
  if validIndex tabs index then
    match tabs !! Z.to_nat index with
    | Some tab => tab.1
    | None => ""
    end
  else "".

Definition widget tabs index : option W :=
  if validIndex tabs index then snd <$> tabs !! Z.to_nat index else None.

End Tabs.

End QTabWidget.

(** A table view: the model it shows and the rows selected in it. *)
Record QTableView : Type := mkTableView {
  view_model : LineListTableModel;
  selectedRows : list Z
}.

(** [LineListPane]: the pane of one line list or line set, with the
    lines of text shown in its header. *)
Record LineListPane : Type := mkPane {
  table_view : QTableView;
  pane_linelist : loc;
  info : list string
}.

(** [PlottedLinesPane]: it has a table view only when the list of plotted
    lines has rows. *)
Record PlottedLinesPane : Type := mkPlottedLinesPane {
  plotted_lines : loc;
  plotted_view : option QTableView
}.

(** The pages of the window's top tab widget: a [QTabWidget] with the
    panes of a line list and of its line sets, a bare [QWidget], or the
    pane of the plotted lines. *)
Inductive page : Type :=
  | LineSets (panes : list (string * LineListPane))
  | PlainWidget
  | PlottedLines (pane : PlottedLinesPane).

(** The widgets of a [LineListsWindow] that its methods read and
    write.  [_plotted_lines_pane] is an attribute that exists only once
    [displayPlottedLines] has run. *)
Record WindowWidgets : Type := mkWidgets {
  tabWidget : list (string * page);
  _plotted_lines_pane : option PlottedLinesPane;
  lines_selected_label : QLabel
}.

(** [functools.reduce(function, sequence)] without an initial value. *)
Definition reduce {A : Type} (function : A -> A -> A) (sequence : list A)
  : result A :=
  match sequence with
  | [] => Raise TypeError
  | x :: xs => Ok (fold_left function xs x)
  end.

Section Window.

Context `{PyFloat}.

(** [PlottedLinesPane.__init__] *)
Definition PlottedLinesPane_init (h : heap) (plotted_lines : loc)
  : result PlottedLinesPane :=
  table_model ← __init__ h plotted_lines;
  if 0 <? rowCount h table_model then
    mret (mkPlottedLinesPane plotted_lines
            (Some (mkTableView table_model [])))
  else mret (mkPlottedLinesPane plotted_lines None).

(** The loop of [displayPlottedLines]; it returns at the first tab whose
    text is [PLOTTED]. *)
Fixpoint replace_plotted (tabs : list (string * page))
  (pane : PlottedLinesPane) (indices : list Z)
  : option (list (string * page)) :=
  match indices with
  | [] => None
  | index :: indices' =>
      let tab_text := QTabWidget.tabText tabs index in
      if String.eqb tab_text PLOTTED then
        let tabs := QTabWidget.removeTab tabs index in
        Some (QTabWidget.insertTab tabs index (PlottedLines pane) PLOTTED)
      else replace_plotted tabs pane indices'
  end.

Definition displayPlottedLines (h : heap) (self : WindowWidgets)
  (linelist : loc) : result WindowWidgets :=
  pane ← PlottedLinesPane_init h linelist;
  let tabs := tabWidget self in
  let tabs' :=
    match replace_plotted tabs pane (seqZ 0 (QTabWidget.count tabs)) with
    | Some tabs' => tabs'
    | None =>
        let index := QTabWidget.count tabs in
        QTabWidget.insertTab tabs index (PlottedLines pane) PLOTTED
    end in
  mret (mkWidgets tabs' (Some pane) (lines_selected_label self)).

Definition erasePlottedLines (self : WindowWidgets) : WindowWidgets :=
  let index_last := QTabWidget.count (tabWidget self) - 1 in
  mkWidgets (QTabWidget.removeTab (tabWidget self) index_last)
    (_plotted_lines_pane self) (lines_selected_label self).

Definition tab_close (self : WindowWidgets) (index : Z) : WindowWidgets :=
  mkWidgets (QTabWidget.removeTab (tabWidget self) index)
    (_plotted_lines_pane self) (lines_selected_label self).

(** The inner loop of [_getPanes] over the tabs of one line list.
    [widget(index)] is [None] only outside [range(count)]. *)
Definition append_panes (widget : list (string * LineListPane))
  (result : list LineListPane) (index_2 : Z) : list LineListPane :=
  match QTabWidget.widget widget index_2 with
  | Some pane => result ++ [pane]
  | None => result
  end.

Definition _getPanes (self : WindowWidgets) : list LineListPane :=
  let tabs := tabWidget self in
  fold_left
    (fun result index_1 =>
       match QTabWidget.widget tabs index_1 with
       | Some (LineSets widget) =>
           if negb (String.eqb (QTabWidget.tabText tabs index_1) PLOTTED)
           then fold_left (append_panes widget)
                  (seqZ 0 (QTabWidget.count widget)) result
           else result
       | _ => result
       end)
    (seqZ 0 (QTabWidget.count tabs)) [].

Definition _getTableViews (self : WindowWidgets) : list QTableView :=
  map table_view (_getPanes self).

Definition _countSelections (self : WindowWidgets) : result WindowWidgets :=
  let panes := _getPanes self in
  let sizes := map (fun pane => len (selectedRows (table_view pane))) panes in
  count ← reduce Z.add sizes;
  let label := setText (lines_selected_label self) (pretty count) in
  let color := if count <? NLINES_WARN then "black" else "red" in
  let label := setStyleSheet label ("color:" +:+ color) in
  mret (mkWidgets (tabWidget self) (_plotted_lines_pane self) label).

(** [LineListPane.handle_button_activation]: whether the button that
    creates a line set is enabled afterwards. *)
Definition handle_button_activation (self : LineListPane) : bool :=
  let nselected := len (selectedRows (table_view self)) in
  0 <? nselected.

End Window.

(** The panes that one tab of the window contributes to the flat list
    of panes, and the number of rows selected over a list of panes. *)
Definition tab_panes (tab : string * page) : list LineListPane :=
  match tab.2 with
  | LineSets widget => if String.eqb tab.1 PLOTTED then [] else widget.*2
  | _ => []
  end.

Definition selected_total (panes : list LineListPane) : Z :=
  fold_right (fun pane n => len (selectedRows (table_view pane)) + n) 0 panes.

(** ** Export of the plotted lines *)

(** [s.endswith(suffix)] *)
Fixpoint endswith (s suffix : string) : bool :=
  if String.eqb s suffix then true
  else match s with
       | EmptyString => false
       | String _ s' => endswith s' suffix
       end.

Section ExportFile.

Context `{PyFloat}.

(** An astropy table as its named columns, in order. *)
Definition Table : Type := list (string * list cell).

Definition table_colnames (table : Table) : list string := table.*1.

(** [table.remove_column(name)]; [KeyError] when there is no such
    column. *)
Definition remove_column (table : Table) (name : string) : result Table :=
  match list_find (fun column => column.1 = name) table with
  | Some (i, _) => Ok (delete i table)
  | None => Raise KeyError
  end.

(** [columns_to_remove] comes from [specviz.core.linelist]; the name and
    the table are what the save dialog and the pane provide. *)
Variable columns_to_remove : list string.

(** The loop over [columns_to_remove].  [remove_column] changes the table
    in place; the fold carries the table's state. *)
Definition remove_columns (output_table : Table) : result Table :=
  for_each
    (fun output_table colum_name =>
       if bool_decide (colum_name ∈ table_colnames output_table)
       then remove_column output_table colum_name
       else mret output_table)
    columns_to_remove output_table.

(** [_export_to_file]: [getsavefilename] is the name returned by the save
    dialog, [table] the table of the pane's plotted lines.  The result is
    the call of [ascii.write], if one is made: the file name and the
    table written. *)
Definition _export_to_file (getsavefilename : string)
  (table : PlottedLinesPane -> Table) (self : WindowWidgets)
  (file_name : option string) : result (option (string * Table)) :=
  match file_name with
  | None =>
      match _plotted_lines_pane self with
      | Some pane =>
          let file_name := getsavefilename in
          let file_name :=
            if negb (endswith file_name ".ecsv") then file_name +:+ ".ecsv"
            else file_name in
          let output_table := table pane in
          output_table ← remove_columns output_table;
          mret (Some (file_name, output_table))
      | None => mret None
      end
  | Some _ => mret None
  end.

End ExportFile.

(** ** The wavelength-range dialog as a whole *)

Record Dialog : Set := mkDialog {
  min_text : QLineEdit;
  max_text : QLineEdit;
  nlines_label : QLabel
}.

Section Dialog.

Context `{PyFloat}.

Variable WAVELENGTH_COLUMN : string.
Variable extract_range : LineList -> waverange -> result LineList.

(** ["%.2f" % x] *)
Variable format_2f : pyfloat -> string.

(** The verdict on a text of the dialog's [QDoubleValidator], set up with
    bottom 0.0 and two decimals. *)
Variable acceptable : string -> bool.

(** The count label as the dialog's .ui file creates it. *)
Variable ui_label : QLabel.

(** [dialog.exec_()]: what the user does with the dialog that is shown,
    namely whether it ends accepted and the texts left in the two
    fields. *)
Variable exec_ : Dialog -> bool * string * string.

(** [self.plot_window._find_wavelength_range()], a pair of quantities. *)
Variable _find_wavelength_range : Quantity * Quantity.

Definition line_edit (s : string) : QLineEdit := mkLineEdit s (acceptable s).

Definition _build_waverange_dialog (self : LineListsWindow)
  (wave_range : Quantity * Quantity) (line_list : LineList)
  : result waverange :=
  let min_text := line_edit (format_2f (value wave_range.1)) in
  let max_text := line_edit (format_2f (value wave_range.2)) in
  nlines_label ←
    _compute_nlines_in_waverange WAVELENGTH_COLUMN extract_range self
      line_list min_text max_text ui_label;
  let '(accepted, user_min, user_max) :=
    exec_ (mkDialog min_text max_text nlines_label) in
  if accepted : bool then
    _get_range_from_textfields self (line_edit user_min) (line_edit user_max)
  else mret (None, None).

(** [_get_waverange_from_dialog], on the window's [wave_range]: the
    range stored when the method ends, and whether it ended by raising.
    When the dialog code raises, the stored range is the one the dialog
    was to show. *)
Definition _get_waverange_from_dialog (self : LineListsWindow)
  (wave_range : waverange) (line_list : LineList)
  : waverange * result Datatypes.unit :=
  let wave_range :=
    match wave_range with
    | (Some amin, Some amax) => (amin, amax)
    | _ => _find_wavelength_range
    end in
  match _build_waverange_dialog self wave_range line_list with
  | Ok wrange => (wrange, Ok tt)
  | Raise e => ((Some wave_range.1, Some wave_range.2), Raise e)
  end.

End Dialog.

(** ** Building the views of the line lists *)

Section Views.

Context `{PyFloat}.

(** The objects on the heap and the next free location: a line list
    returned by [extract_range] is a new object. *)
Record Store : Type := mkStore {
  objects : heap;
  next : loc
}.

(** The truth value of a [Quantity], as astropy defines it. *)
Variable Quantity_bool : Quantity -> bool.

Variable extract_range : LineList -> waverange -> result LineList.

Definition new_object (st : Store) (table : LineList) : Store * loc :=
  (mkStore (heap_set (objects st) (next st) table) (S (next st)), next st).

(** Truth value of a bound of a range: [None] is false. *)
Definition truthy (bound : option Quantity) : bool :=
  match bound with
  | Some q => Quantity_bool q
  | None => false
  end.

(** [LineListTableModel.getName] *)
Definition getName (h : heap) (self : LineListTableModel) : string :=
  name (h (_linelist self)).

(** [LineListPane._build_GUI], as far as it depends on the list: the
    header of the pane receives the comments of the list's metadata, and
    [linelist.meta['comments']] raises [KeyError] when the metadata has no
    comments.  The rest of the method sets up buttons, the colour picker
    and validators, which depend on nothing modelled here. *)
Definition LineListPane_build_GUI (h : heap) (linelist : loc)
  : result (list string) :=
  match meta_comments (h linelist) with
  | Some comments =>
      Ok (fold_left (fun info comment => info ++ [comment]) comments [])
  | None => Raise KeyError
  end.

(** [LineListPane.__init__] *)
Definition LineListPane_init (h : heap) (table_view : QTableView)
  (linelist : loc) : result LineListPane :=
  info ← LineListPane_build_GUI h linelist;
  mret (mkPane table_view linelist info).

(** [_createLineListPane]: a table view on the model, through a sort
    proxy left in the model's order, with nothing selected, and the pane
    that holds it.  The settings of the view have no part in what
    follows. *)
Definition _createLineListPane (h : heap) (linelist : loc)
  (table_model : LineListTableModel) : result (LineListPane * QTableView) :=
  let table_view := mkTableView table_model [] in
  pane ← LineListPane_init h table_view linelist;
  mret (pane, table_view).

(** The first statement of [_build_view]: the list is replaced by the
    result of its [extract_range] only when both bounds of the range are
    true values.  [line_list] may be [None], as the entries of
    [plot_window.linelists] may be. *)
Definition _build_view_range (st : Store) (line_list : option loc)
  (waverange : waverange) : result (Store * option loc) :=
  if truthy waverange.1 && truthy waverange.2 then
    match line_list with
    | Some line_list =>
        extracted ← extract_range (objects st line_list) waverange;
        let '(st, line_list) := new_object st extracted in
        mret (st, Some line_list)
    | None => Raise AttributeError
    end
  else mret (st, line_list).

(** [_build_view]: the store and the widgets afterwards, and the value
    returned, [None] when the method falls off its end.
    [LineListTableModel(None)] raises [TypeError] when it iterates over
    its argument.  Connecting the signals and making the new tab current
    change nothing that is modelled here. *)
Definition _build_view (st : Store) (self : WindowWidgets)
  (line_list : option loc) (index : Z) (waverange : waverange)
  : result (Store * WindowWidgets * option loc) :=
  '(st, line_list) ← _build_view_range st line_list waverange;
  match line_list with
  | None => Raise TypeError
  | Some line_list =>
      table_model ← __init__ (objects st) line_list;
      if 0 <? rowCount (objects st) table_model then
        let lineset_tabbed_pane := [] in
        '(pane, table_view) ←
          _createLineListPane (objects st) line_list table_model;
        let lineset_tabbed_pane :=
          QTabWidget.addTab lineset_tabbed_pane pane "Original" in
        let tabs :=
          QTabWidget.insertTab (tabWidget self) index
            (LineSets lineset_tabbed_pane)
            (getName (objects st) table_model) in
        mret (st,
              mkWidgets tabs (_plotted_lines_pane self)
                (lines_selected_label self),
              Some line_list)
      else mret (st, self, None)
  end.

(** [_buildViews], for the list [plot_window.linelists], whose entries
    are line lists or [None]. *)
Definition _buildViews (st : Store) (self : WindowWidgets)
  (window_linelists : list (option loc)) : result (Store * WindowWidgets) :=
  '(st, self) ←
    for_each
      (fun (state : Store * WindowWidgets) (item : option loc * Z) =>
         let '(st, self) := state in
         let '(linelist, index) := item in
         '(st, self, _) ← _build_view st self linelist index (None, None);
         mret (st, self))
      (zip window_linelists (seqZ 0 (len window_linelists))) (st, self);
  let widget_count := QTabWidget.count (tabWidget self) in
  if 0 <? widget_count then
    let tabs := QTabWidget.addTab (tabWidget self) PlainWidget PLOTTED in
    mret (st,
          mkWidgets tabs (_plotted_lines_pane self)
            (lines_selected_label self))
  else mret (st, self).

End Views.

(** The tab that [_build_view] makes for a line list: one tab widget
    holding the pane "Original" on the list's model, with the list's
    comments in its header. *)
Definition original_tab `{PyFloat} (h : heap) (line_list : loc)
  : string * page :=
  (name (h line_list),
   LineSets
     [("Original",
       mkPane
         (mkTableView
            (mkModel line_list (len (rows (h line_list)))
               (match rows (h line_list) with
                | [] => 0
                | first :: _ => len first
                end)
               (map render_row (rows (h line_list))))
            [])
         line_list
         (default [] (meta_comments (h line_list))))]).

Definition has_rows `{PyFloat} (h : heap) (line_list : loc) : bool :=
  match rows (h line_list) with
  | [] => false
  | _ :: _ => true
  end.

(** What [_build_view] does once the list to show is settled: no tab
    for a list without rows, [KeyError] for a list with rows and no
    comments, and otherwise the tab of the list, inserted at the index. *)
Definition show_list `{PyFloat} (st : Store) (self : WindowWidgets)
  (line_list : loc) (index : Z)
  : result (Store * WindowWidgets * option loc) :=
  if has_rows (objects st) line_list then
    match meta_comments (objects st line_list) with
    | Some _ =>
        Ok (st,
            mkWidgets
              (QTabWidget.insertTab (tabWidget self) index
                 (original_tab (objects st) line_list).2
                 (original_tab (objects st) line_list).1)
              (_plotted_lines_pane self) (lines_selected_label self),
            Some line_list)
    | None => Raise KeyError
    end
  else Ok (st, self, None).

(** An entry of [plot_window.linelists] for which [_build_view] goes
    through: a line list that has comments in its metadata or has no
    rows. *)
Definition viewable `{PyFloat} (h : heap) (entry : option loc) : Prop :=
  exists line_list,
    entry = Some line_list
    /\ (has_rows h line_list = true ->
        is_Some (meta_comments (h line_list))).

(** The tabs that result from inserting one tab into [tabs] at [index]:
    the tab sits at the index when that is a valid index of [tabs], and at
    the end otherwise. *)
Definition inserted (tabs : list (string * page)) (index : Z)
  (tab : string * page) (tabs' : list (string * page)) : Prop :=
  exists pre suf,
    tabs = pre ++ suf
    /\ tabs' = pre ++ tab :: suf
    /\ (QTabWidget.validIndex tabs index = true -> len pre = index)
    /\ (QTabWidget.validIndex tabs index = false -> suf = []).

(** The three outcomes of showing a list. *)
Definition shows `{PyFloat} (st : Store) (self : WindowWidgets)
  (shown : loc) (index : Z)
  (outcome : result (Store * WindowWidgets * option loc)) : Prop :=
  (rows (objects st shown) = [] -> outcome = Ok (st, self, None))
  /\ (rows (objects st shown) <> [] ->
      meta_comments (objects st shown) = None ->
      outcome = Raise KeyError)
  /\ (rows (objects st shown) <> [] ->
      is_Some (meta_comments (objects st shown)) ->
      exists self',
        outcome = Ok (st, self', Some shown)
        /\ _plotted_lines_pane self' = _plotted_lines_pane self
        /\ lines_selected_label self' = lines_selected_label self
        /\ inserted (tabWidget self) index (original_tab (objects st) shown)
             (tabWidget self')).

(** ** Choosing a line list *)

Section Selection.

Context `{PyFloat}.

(** The state of a [LineListsWindow] that the two entry points below read
    and write: the heap, the widgets, [self.wave_range], the current
    index of [self.line_list_selector], the number of error dialogs shown
    and [self.plot_window.linelists]. *)
Record WindowState : Type := mkState {
  w_store : Store;
  w_widgets : WindowWidgets;
  w_wave_range : waverange;
  w_selector_index : Z;
  w_error_dialogs : nat;
  w_linelists : list (option loc)
}.

Variable WAVELENGTH_COLUMN : string.
Variable extract_range : LineList -> waverange -> result LineList.
Variable format_2f : pyfloat -> string.
Variable acceptable : string -> bool.
Variable ui_label : QLabel.
Variable exec_ : Dialog -> bool * string * string.
Variable _find_wavelength_range : Quantity * Quantity.
Variable Quantity_bool : Quantity -> bool.

(** [linelist.get_from_cache(i)], which may raise. *)
Variable get_from_cache : Z -> result loc.

(** [linelist.get_from_file(os.path.dirname(name), name)]: it may raise,
    return [None], or return a new line list. *)
Variable get_from_file : Store -> string -> result (Store * option loc).

(** The truth value of a line list object. *)
Variable LineList_bool : LineList -> bool.

Definition is_UnitConversionError (e : exn) : bool :=
  match e with
  | UnitConversionError => true
  | _ => false
  end.

(** The [except UnitConversionError] clause: it shows the error dialog;
    any other exception goes on. *)
Definition except_UnitConversionError (s : WindowState) (e : exn)
  : WindowState * result Datatypes.unit :=
  if is_UnitConversionError e then
    (mkState (w_store s) (w_widgets s) (w_wave_range s)
       (w_selector_index s) (S (w_error_dialogs s)) (w_linelists s),
     Ok tt)
  else (s, Raise e).

Definition with_wave_range (s : WindowState) (wave_range : waverange)
  : WindowState :=
  mkState (w_store s) (w_widgets s) wave_range (w_selector_index s)
    (w_error_dialogs s) (w_linelists s).

(** [_lineList_selection_change]: the state afterwards, and whether the
    method ended by raising. *)
Definition _lineList_selection_change (self : LineListsWindow)
  (s : WindowState) (index : Z) : WindowState * result Datatypes.unit :=
  if 0 <? index then
    match get_from_cache (index - 1) with
    | Raise e => (s, Raise e)
    | Ok line_list =>
        let '(wave_range, outcome) :=
          _get_waverange_from_dialog WAVELENGTH_COLUMN extract_range
            format_2f acceptable ui_label exec_ _find_wavelength_range self
            (w_wave_range s) (objects (w_store s) line_list) in
        let s := with_wave_range s wave_range in
        match outcome with
        | Raise e => except_UnitConversionError s e
        | Ok _ =>
            if truthy Quantity_bool wave_range.1
               && truthy Quantity_bool wave_range.2
            then
              match _build_view Quantity_bool extract_range (w_store s)
                      (w_widgets s) (Some line_list) 0 wave_range with
              | Raise e => except_UnitConversionError s e
              | Ok (st, widgets, _) =>
                  (mkState st widgets wave_range 0 (w_error_dialogs s)
                     (w_linelists s),
                   Ok tt)
              end
            else
              (mkState (w_store s) (w_widgets s) wave_range 0
                 (w_error_dialogs s) (w_linelists s),
               Ok tt)
        end
    end
  else (s, Ok tt).

(** [_open_linelist_file]: [getopenfilenames] is the list of names that
    the file dialog returns, [None] when it returns none. *)
Definition _open_linelist_file (getopenfilenames : option (list string))
  (self : LineListsWindow) (s : WindowState) (file_name : option string)
  : WindowState * result Datatypes.unit :=
  match file_name, getopenfilenames with
  | None, Some (name :: _) =>
      match get_from_file (w_store s) name with
      | Raise e => (s, Raise e)
      | Ok (st, line_list) =>
          let s :=
            mkState st (w_widgets s) (w_wave_range s) (w_selector_index s)
              (w_error_dialogs s) (w_linelists s) in
          match line_list with
          | Some line_list =>
              if LineList_bool (objects st line_list) then
                let '(wave_range, outcome) :=
                  _get_waverange_from_dialog WAVELENGTH_COLUMN extract_range
                    format_2f acceptable ui_label exec_
                    _find_wavelength_range self (w_wave_range s)
                    (objects st line_list) in
                let s := with_wave_range s wave_range in
                match outcome with
                | Raise e => (s, Raise e)
                | Ok _ =>
                    if truthy Quantity_bool wave_range.1
                       && truthy Quantity_bool wave_range.2
                    then
                      match _build_view Quantity_bool extract_range st
                              (w_widgets s) (Some line_list) 0 wave_range
                      with
                      | Raise e => (s, Raise e)
                      | Ok (st, widgets, line_list) =>
                          (mkState st widgets wave_range
                             (w_selector_index s) (w_error_dialogs s)
                             (w_linelists s ++ [line_list]),
                           Ok tt)
                      end
                    else (s, Ok tt)
                end
              else (s, Ok tt)
          | None => (s, Ok tt)
          end
      end
  | _, _ => (s, Ok tt)
  end.

End Selection.

(** ** Further examples *)

Module WindowExamples.

Import Decimal.

Definition plotted_pane : PlottedLinesPane := mkPlottedLinesPane 0%nat None.

Definition widgets : WindowWidgets :=
  mkWidgets [] (Some plotted_pane) (mkLabel "" "").

Definition plotted_table : Table :=
  [ ("Wavelength", [Numeric (inject_Z 4500)]);
    ("color", [Color (Qt.QColor_of_global Qt.red)]);
    ("Species", [Text "H I"]) ].

Definition columns_to_remove : list string := ["color"; "height"].

Definition exported_table : Table :=
  [ ("Wavelength", [Numeric (inject_Z 4500)]);
    ("Species", [Text "H I"]) ].

(** A dialog in which the user types 4000 and 5000 and accepts. *)
Definition acceptable (s : string) : bool :=
  match parse s with
  | Ok _ => true
  | Raise _ => false
  end.

Definition exec_ (dialog : Dialog) : bool * string * string :=
  (true, "4000", "5000").

Definition plot_range : Quantity * Quantity :=
  (mkQuantity (inject_Z 3000) "Angstrom",
   mkQuantity (inject_Z 7000) "Angstrom").

(** A store with a list of three lines, a list without lines and a list
    of two lines. *)
Definition store : Store :=
  mkStore
    (fun l =>
       match l with
       | 0%nat => Examples.three_lines
       | 1%nat => Examples.empty
       | _ => Examples.two_lines
       end)
    3%nat.

Definition no_tabs : WindowWidgets := mkWidgets [] None (mkLabel "" "").

(** A file that holds the list of three lines, a dialog in which the
    user types 100 and 200 and accepts, and the window before the file is
    opened. *)
Definition get_from_file (st : Store) (name : string)
  : result (Store * option loc) :=
  Ok (st, Some 0%nat).

Definition exec_narrow (dialog : Dialog) : bool * string * string :=
  (true, "100", "200").

Definition narrow_range : waverange :=
  (Some (mkQuantity (inject_Z 100) "Angstrom"),
   Some (mkQuantity (inject_Z 200) "Angstrom")).

Definition state : WindowState :=
  mkState store no_tabs (None, None) 0 0%nat [].

End WindowExamples.

(** * Properties *)

(** ** Python indexing *)

Section Indexing.

Context {A : Type}.
Implicit Types (l : list A) (i : Z) (a : A).

Lemma len_nonneg l : 0 <= len l.
Proof. unfold len. lia. Qed.

Lemma len_app l1 l2 : len (l1 ++ l2) = len l1 + len l2.
Proof. unfold len. rewrite length_app. lia. Qed.

Lemma py_index_front l i a :
  0 <= i -> l !! Z.to_nat i = Some a -> py_index l i = Ok a.
Proof.
  intros Hi Hl. unfold py_index.
  pose proof (lookup_lt_Some _ _ _ Hl) as Hlt.
  destruct (i <? 0) eqn:Hneg; [lia|].
  destruct (i <? 0); [lia|].
  destruct (len l <=? i) eqn:Hge; [unfold len in Hge; lia|].
  simpl. now rewrite Hl.
Qed.

Lemma py_index_beyond l i : len l <= i -> py_index l i = Raise IndexError.
Proof.
  intros Hi. pose proof (len_nonneg l). unfold py_index.
  destruct (i <? 0) eqn:Hneg; [lia|]. rewrite Hneg.
  destruct (len l <=? i) eqn:Hge; [reflexivity | lia].
Qed.

Lemma py_index_below l i : i < - len l -> py_index l i = Raise IndexError.
Proof.
  intros Hi. pose proof (len_nonneg l). unfold py_index.
  destruct (i <? 0) eqn:Hneg; [|lia].
  destruct (i + len l <? 0) eqn:Hj; [reflexivity | lia].
Qed.

Lemma py_index_back l i :
  - len l <= i < 0 -> py_index l i = py_index l (i + len l).
Proof.
  intros Hi. unfold py_index.
  assert (Hneg : (i <? 0) = true) by lia.
  assert (Hj : (i + len l <? 0) = false) by lia.
  rewrite Hneg, Hj. cbv zeta. now rewrite Hj.
Qed.

Lemma py_index_inv l i a :
  py_index l i = Ok a -> - len l <= i < len l.
Proof.
  intros Hidx.
  destruct (Z_lt_ge_dec i (- len l)) as [Hlo|Hlo].
  - rewrite py_index_below in Hidx by lia. discriminate.
  - destruct (Z_lt_ge_dec i (len l)) as [Hhi|Hhi]; [lia|].
    rewrite py_index_beyond in Hidx by lia. discriminate.
Qed.

End Indexing.

(** ** Colour resolution *)

Section Resolve.

Variable cell : Qt.QColor.

Lemma channels_bounded (c : Qt.QColor) :
  (0 <= Qt.qred c <= 255) /\ (0 <= Qt.qgreen c <= 255)
  /\ (0 <= Qt.qblue c <= 255).
Proof.
  destruct c as [r g b Hc]; simpl. unfold Qt.channel_ok in Hc.
  repeat (apply andb_prop in Hc as [Hc ?]). lia.
Qed.

Lemma palette_dist_bounded kv : 0 <= palette_dist cell kv <= 765.
Proof.
  unfold palette_dist, dist.
  pose proof (channels_bounded cell).
  pose proof (channels_bounded (Qt.QColor_of_global kv.2)). lia.
Qed.

Let step := closest_step (Qt.qred cell) (Qt.qgreen cell) (Qt.qblue cell).

(** The loop either leaves its state alone, because no item improves on
    [min_dist], or ends on the first item of least distance. *)
Lemma closest_loop_spec items min_dist result :
  (fold_left step items (min_dist, result) = (min_dist, result)
   /\ Forall (fun kv => min_dist <= palette_dist cell kv) items)
  \/ (exists pre kv suf,
        items = pre ++ kv :: suf
        /\ fold_left step items (min_dist, result)
           = (palette_dist cell kv, RefGlobal kv.2)
        /\ palette_dist cell kv < min_dist
        /\ Forall (fun x => palette_dist cell kv < palette_dist cell x) pre
        /\ Forall (fun x => palette_dist cell kv <= palette_dist cell x) suf).
Proof.
  revert min_dist result.
  induction items as [|kv items IH]; intros min_dist result; simpl.
  - left. split; [reflexivity | constructor].
  - unfold step at 2, closest_step. fold (palette_dist cell kv).
    destruct (palette_dist cell kv <? min_dist) eqn:Hlt.
    + apply Z.ltb_lt in Hlt.
      destruct (IH (palette_dist cell kv) (RefGlobal kv.2))
        as [[Heq Hall] | (pre & kv' & suf & Hitems & Heq & Hlt' & Hpre & Hsuf)].
      * right. exists [], kv, items. repeat split; auto.
      * right. exists (kv :: pre), kv', suf. subst items.
        repeat split; auto; try lia; constructor; solve [lia | assumption].
    + apply Z.ltb_ge in Hlt.
      destruct (IH min_dist result)
        as [[Heq Hall] | (pre & kv' & suf & Hitems & Heq & Hlt' & Hpre & Hsuf)].
      * left. split; [assumption|]. constructor; assumption.
      * right. exists (kv :: pre), kv', suf. subst items.
        repeat split; auto; try lia; constructor; solve [lia | assumption].
Qed.

(** The key recovered from a palette value is the name it is listed
    under. *)
Lemma palette_key_of_value :
  Forall (fun kv =>
    py_index (map fst (filter (fun x => value_eq x.2 (RefGlobal kv.2))
                         ID_COLORS)) 0 = Ok kv.1) ID_COLORS.
Proof. repeat constructor. Qed.

Lemma resolve_color_spec :
  exists pre kv suf,
    ID_COLORS = pre ++ kv :: suf
    /\ resolve_color cell = Ok kv.1
    /\ Forall (fun x => palette_dist cell kv < palette_dist cell x) pre
    /\ Forall (fun x => palette_dist cell kv <= palette_dist cell x) suf.
Proof.
  unfold resolve_color, closest_loop. fold step.
  destruct (closest_loop_spec ID_COLORS 100000 (RefCell cell))
    as [[_ Hall] | (pre & kv & suf & Hitems & Heq & _ & Hpre & Hsuf)].
  - exfalso. apply Forall_inv in Hall.
    pose proof (palette_dist_bounded ("black", Qt.black)). lia.
  - exists pre, kv, suf. rewrite Heq. repeat split; auto.
    pose proof palette_key_of_value as Hkey.
    rewrite Forall_forall in Hkey. apply Hkey.
    rewrite Hitems. apply elem_of_app. right. left.
Qed.

End Resolve.

Lemma resolve_color_total c : resolve_color c = Ok (color_name c).
Proof.
  unfold color_name.
  destruct (resolve_color_spec c) as (pre & kv & suf & _ & Hres & _).
  now rewrite Hres.
Qed.

(** C3: every colour resolves to a palette entry of least distance (sum
    of the absolute differences of the red, green and blue channels) over
    the nine entries of the palette, and among the entries of least
    distance to the first one in the palette's order; the colour
    (250, 10, 10) resolves to "red". *)
Theorem resolve_color_nearest_first :
  length ID_COLORS = 9%nat
  /\ (forall cell : Qt.QColor,
        exists pre kv suf,
          ID_COLORS = pre ++ kv :: suf
          /\ resolve_color cell = Ok kv.1
          /\ Forall (fun x => palette_dist cell kv <= palette_dist cell x)
               ID_COLORS
          /\ Forall (fun x => palette_dist cell kv < palette_dist cell x) pre)
  /\ resolve_color (Qt.qRgb 250 10 10 eq_refl) = Ok "red".
Proof.
  split; [reflexivity|]. split; [|reflexivity].
  intros cell.
  destruct (resolve_color_spec cell) as (pre & kv & suf & Hitems & Hres & Hpre & Hsuf).
  exists pre, kv, suf. repeat split; auto.
  rewrite Hitems. apply Forall_app. split.
  - eapply Forall_impl; [exact Hpre|]. simpl. intros; lia.
  - constructor; [lia | assumption].
Qed.

(** C9: each palette entry's own colour resolves to that entry's name,
    and every colour resolves, without error, to the name of some palette
    entry. *)
Theorem resolve_color_palette_fixed_point :
  Forall (fun kv => resolve_color (Qt.QColor_of_global kv.2) = Ok kv.1)
    ID_COLORS
  /\ (forall cell : Qt.QColor,
        exists key, resolve_color cell = Ok key /\ key ∈ ID_COLORS.*1).
Proof.
  split; [repeat constructor|].
  intros cell.
  destruct (resolve_color_spec cell) as (pre & kv & suf & Hitems & Hres & _).
  exists kv.1. split; [assumption|].
  apply list_elem_of_fmap. exists kv. split; [reflexivity|].
  rewrite Hitems. apply elem_of_app. right. left.
Qed.

(** ** Construction of the table model *)

Section Construction.

Context `{PyFloat}.
Implicit Types (r : list cell) (st : LineListTableModel * list Z).

Lemma init_cell_ok r cells i c :
  0 <= i -> r !! Z.to_nat i = Some c ->
  init_cell r cells i = Ok (cells ++ [QString (display_text c)]).
Proof.
  intros Hi Hc. unfold init_cell.
  rewrite (py_index_front _ _ _ Hi Hc). simpl.
  destruct c as [x|s|qc]; simpl; try reflexivity.
  now rewrite resolve_color_total.
Qed.

(** The inner loop visits the cells of the row from left to right. *)
Lemma init_cells_from pre suf cells :
  for_each (init_cell (pre ++ suf)) (seqZ (len pre) (len suf)) cells
  = Ok (cells ++ render_row suf).
Proof.
  revert pre cells. induction suf as [|c suf IH]; intros pre cells.
  - simpl. now rewrite app_nil_r.
  - rewrite seqZ_cons by (unfold len; simpl; lia). simpl.
    rewrite (init_cell_ok _ _ _ c) by
      (try apply len_nonneg; unfold len; rewrite Nat2Z.id;
       now rewrite list_lookup_middle).
    simpl.
    replace (Z.succ (len pre)) with (len (pre ++ [c]))
      by (rewrite len_app; unfold len; simpl; lia).
    replace (Z.pred (len (c :: suf))) with (len suf)
      by (unfold len; simpl; lia).
    replace (pre ++ c :: suf) with ((pre ++ [c]) ++ suf)
      by now rewrite <- app_assoc.
    rewrite IH. now rewrite <- app_assoc.
Qed.

Lemma init_cells_ok r :
  for_each (init_cell r) (seqZ 0 (len r)) [] = Ok (render_row r).
Proof. exact (init_cells_from [] r []). Qed.

Lemma init_row_ok st r :
  init_row st r
  = Ok (mkModel (_linelist st.1) (len (_row_cells st.1 ++ [render_row r]))
          (match _row_cells st.1 ++ [render_row r] with
           | [] => 0
           | first :: _ => len first
           end)
          (_row_cells st.1 ++ [render_row r]),
        st.2 ++ [0]).
Proof.
  destruct st as [self probes]. unfold init_row.
  rewrite init_cells_ok. simpl.
  destruct (_row_cells self ++ [render_row r]) as [|first rest] eqn:Hrc.
  - now destruct (_row_cells self).
  - rewrite (py_index_front _ 0 first) by (simpl; auto; lia). reflexivity.
Qed.

Lemma init_loop_ok rs st :
  counts_frozen st.1 ->
  exists self,
    for_each init_row rs st
    = Ok (self, st.2 ++ replicate (length rs) 0)
    /\ counts_frozen self
    /\ _linelist self = _linelist st.1
    /\ _row_cells self = _row_cells st.1 ++ map render_row rs.
Proof.
  revert st. induction rs as [|r rs IH]; intros [self probes] Hinv.
  - exists self. simpl. now rewrite !app_nil_r.
  - change (for_each init_row (r :: rs) (self, probes))
      with (bind (init_row (self, probes) r) (for_each init_row rs)).
    rewrite init_row_ok. simpl bind.
    edestruct IH as (self' & Hrun & Hinv' & Hll & Hrc);
      [|exists self'; rewrite Hrun; simpl in *; split_and!].
    + split; reflexivity.
    + now rewrite <- app_assoc.
    + assumption.
    + assumption.
    + rewrite Hrc. now rewrite <- app_assoc.
Qed.

(** [__init__] always succeeds; it stores the display texts of the rows,
    the number of rows and the length of the first row. *)
Lemma init_traced_ok (h : heap) (linelist : loc) :
  init_traced h linelist
  = Ok (mkModel linelist (len (rows (h linelist)))
          (match rows (h linelist) with
           | [] => 0
           | first :: _ => len first
           end)
          (map render_row (rows (h linelist))),
        replicate (length (rows (h linelist))) 0).
Proof.
  unfold init_traced.
  destruct (init_loop_ok (rows (h linelist)) (mkModel linelist 0 0 [], []))
    as (self & Hrun & [Hn Hc] & Hll & Hrc); [split; reflexivity|].
  rewrite Hrun. simpl in *. f_equal. f_equal.
  destruct self as [l n c rc]; simpl in *. subst.
  f_equal.
  - unfold len. now rewrite length_map.
  - destruct (rows (h linelist)) as [|first rest]; simpl; [reflexivity|].
    unfold render_row, len. now rewrite length_map.
Qed.

Lemma init_ok (h : heap) (linelist : loc) :
  __init__ h linelist
  = Ok (mkModel linelist (len (rows (h linelist)))
          (match rows (h linelist) with
           | [] => 0
           | first :: _ => len first
           end)
          (map render_row (rows (h linelist)))).
Proof. unfold __init__. now rewrite init_traced_ok. Qed.

End Construction.

(** ** Accessors of the table model *)

Section Accessors.

Context `{PyFloat}.

Lemma py_index_render_rows (rs : list (list cell)) (i : Z) (r : list cell) :
  0 <= i -> rs !! Z.to_nat i = Some r ->
  py_index (map render_row rs) i = Ok (render_row r).
Proof.
  intros Hi Hr. apply py_index_front; [assumption|].
  change (map render_row rs) with (render_row <$> rs).
  now rewrite list_lookup_fmap, Hr.
Qed.

Lemma len_render_row (r : list cell) : len (render_row r) = len r.
Proof. unfold len, render_row. now rewrite length_map. Qed.

Lemma len_render_rows (rs : list (list cell)) :
  len (map render_row rs) = len rs.
Proof. unfold len. now rewrite length_map. Qed.

Lemma py_index_render_row (r : list cell) (j : Z) (c : cell) :
  0 <= j -> r !! Z.to_nat j = Some c ->
  py_index (render_row r) j = Ok (QString (display_text c)).
Proof.
  intros Hj Hc. apply py_index_front; [assumption|].
  unfold render_row.
  change (map ?f r) with (f <$> r).
  now rewrite list_lookup_fmap, Hc.
Qed.

End Accessors.

Example init_three_lines :
  __init__ (Examples.store Examples.three_lines) 0%nat = Ok Examples.model.
Proof. reflexivity. Qed.

Example data_three_lines :
  data (Examples.store Examples.three_lines) Examples.model (mkIndex 1 1)
    (Some Qt.DisplayRole) = Ok (QString "He I")
  /\ data (Examples.store Examples.three_lines) Examples.model (mkIndex 0 0)
       (Some Qt.DisplayRole) = Ok (QString "4500.0")
  /\ data (Examples.store Examples.three_lines) Examples.model (mkIndex 3 0)
       (Some Qt.DisplayRole) = Raise IndexError
  /\ data (Examples.store Examples.three_lines) Examples.model (mkIndex 0 0)
       None = Ok QInvalid.
Proof. repeat split. Qed.

(** C4: the model built from a source reports, as its row count, the
    number of rows the source had at construction; [rowCount] and
    [columnCount] return the values frozen at construction whatever has
    since happened to the source on the heap. *)
Theorem counts_fixed_at_construction `{PyFloat} (h : heap) (linelist : loc) :
  exists self,
    __init__ h linelist = Ok self
    /\ rowCount h self = len (rows (h linelist))
    /\ (forall h' : heap,
          rowCount h' self = rowCount h self
          /\ columnCount h' self = columnCount h self)
    /\ (forall source' : LineList,
          rowCount (heap_set h linelist source') self
          = len (rows (h linelist))).
Proof.
  eexists. split; [apply init_ok|]. repeat split.
Qed.

(** C5, as the code has it: at the display role, a row index at or
    beyond the row count or below its opposite raises [IndexError], and
    so does a column index at or beyond the length of the addressed row
    or below its opposite; an index pair inside the stored rows returns
    the display text frozen at construction, whatever the heap holds by
    then; and a negative index [i] with [-len <= i < 0] addresses the
    cell at [i + len]. *)
Theorem data_python_indexing `{PyFloat} (h : heap) (linelist : loc) :
  exists self,
    __init__ h linelist = Ok self
    /\ forall (h' : heap) (i j : Z),
         let lookup i j := data h' self (mkIndex i j) (Some Qt.DisplayRole) in
         (rowCount h' self <= i \/ i < - rowCount h' self ->
          lookup i j = Raise IndexError)
         /\ (forall r, 0 <= i -> rows (h linelist) !! Z.to_nat i = Some r ->
               (len r <= j \/ j < - len r -> lookup i j = Raise IndexError)
               /\ (forall c, 0 <= j -> r !! Z.to_nat j = Some c ->
                     lookup i j = Ok (QString (display_text c)))
               /\ (- len r <= j < 0 -> lookup i j = lookup i (j + len r)))
         /\ (- rowCount h' self <= i < 0 ->
             lookup i j = lookup (i + rowCount h' self) j).
Proof.
  eexists. split; [apply init_ok|].
  intros h' i j lookup. subst lookup. unfold data, rowCount. simpl.
  rewrite <- len_render_rows. split_and!.
  - intros [Hhi|Hlo].
    + now rewrite py_index_beyond.
    + now rewrite py_index_below.
  - intros r Hi Hr. rewrite (py_index_render_rows _ _ _ Hi Hr). simpl.
    rewrite <- len_render_row. split_and!.
    + intros [Hhi|Hlo].
      * now rewrite py_index_beyond.
      * now rewrite py_index_below.
    + intros c Hj Hc. now apply py_index_render_row.
    + intros Hj. now apply py_index_back.
  - intros Hi. now rewrite py_index_back.
Qed.

(** C5, as the claim has it, fails: the index (-1, -1) is outside the
    bounds of a model with one row and two columns, yet the lookup returns
    the last cell. *)
Lemma data_negative_index_no_error :
  ~ (forall (h : heap) (linelist : loc) (self : LineListTableModel)
       (index : QModelIndex),
       __init__ h linelist = Ok self ->
       ~ (0 <= row index < rowCount h self
          /\ 0 <= column index < columnCount h self) ->
       data h self index (Some Qt.DisplayRole) = Raise IndexError).
Proof.
  intros Hclaim.
  specialize (Hclaim (Examples.store Examples.two_by_one) 0%nat _
                (mkIndex (-1) (-1)) eq_refl).
  vm_compute in Hclaim.
  assert (Hbad : Ok (QString "b") = Raise IndexError)
    by (apply Hclaim; intros [[Hle _] _]; now apply Hle).
  discriminate Hbad.
Qed.

(** C7: for a source without rows the construction succeeds with both
    counts 0, and it reads [self._row_cells] at no index. *)
Theorem init_empty_source `{PyFloat} (h : heap) (linelist : loc) :
  rows (h linelist) = [] ->
  exists self,
    init_traced h linelist = Ok (self, [])
    /\ __init__ h linelist = Ok self
    /\ rowCount h self = 0
    /\ columnCount h self = 0.
Proof.
  intros Hrows. eexists.
  rewrite init_ok, init_traced_ok, Hrows. simpl. repeat split.
Qed.

Lemma init_empty_source_witness :
  rows (Examples.store Examples.empty 0%nat) = []
  /\ exists self,
       init_traced (Examples.store Examples.empty) 0%nat = Ok (self, [])
       /\ __init__ (Examples.store Examples.empty) 0%nat = Ok self
       /\ rowCount (Examples.store Examples.empty) self = 0
       /\ columnCount (Examples.store Examples.empty) self = 0.
Proof.
  split; [reflexivity|].
  apply (init_empty_source (Examples.store Examples.empty) 0%nat).
  reflexivity.
Defined.

(** C10: for a source with at least one row the column count is the
    length of the first row, whatever the lengths of the others; a lookup
    in a row at a column at or beyond that row's own length raises
    [IndexError], also when the column is below the column count, and the
    outcome of a lookup does not depend on the stored column count. *)
Theorem column_count_is_first_row `{PyFloat} (h : heap) (linelist : loc)
  (first : list cell) (rest : list (list cell)) :
  rows (h linelist) = first :: rest ->
  exists self,
    __init__ h linelist = Ok self
    /\ columnCount h self = len first
    /\ (forall (i j : Z) (r : list cell),
          0 <= i -> (first :: rest) !! Z.to_nat i = Some r -> len r <= j ->
          data h self (mkIndex i j) (Some Qt.DisplayRole) = Raise IndexError)
    /\ (forall (ncols : Z) (index : QModelIndex)
          (role : option Qt.ItemDataRole),
          data h (mkModel (_linelist self) (_nrows self) ncols
                    (_row_cells self)) index role
          = data h self index role).
Proof.
  intros Hrows. eexists. split; [apply init_ok|].
  rewrite Hrows. simpl. split_and!; [reflexivity| |reflexivity].
  intros i j r Hi Hr Hj. unfold data. simpl.
  change (render_row first :: map render_row rest)
    with (map render_row (first :: rest)).
  rewrite (py_index_render_rows _ _ _ Hi Hr). simpl.
  apply py_index_beyond. now rewrite len_render_row.
Qed.

Lemma column_count_is_first_row_witness :
  rows (Examples.store Examples.ragged 0%nat)
  = [Text "a"; Text "b"] :: [[Text "c"]]
  /\ exists self,
       __init__ (Examples.store Examples.ragged) 0%nat = Ok self
       /\ columnCount (Examples.store Examples.ragged) self = 2
       /\ data (Examples.store Examples.ragged) self (mkIndex 1 1)
            (Some Qt.DisplayRole) = Raise IndexError.
Proof.
  split; [reflexivity|].
  destruct (column_count_is_first_row (Examples.store Examples.ragged) 0%nat
              [Text "a"; Text "b"] [[Text "c"]] eq_refl)
    as (self & Hinit & Hcols & Hdata & _).
  exists self. split_and!; [exact Hinit | exact Hcols |].
  apply (Hdata 1 1 [Text "c"]); [lia | reflexivity | unfold len; simpl; lia].
Defined.

(** ** Header tooltips *)

(** C6, as the code has it: in the horizontal header at the tooltip
    role, a column named as the wavelength or the error column gets the
    string of its unit, whatever tooltips are configured.  Any other
    column gets the empty string when the source's tooltips are [None] or
    an empty list; when the tooltips list is not empty the list is read
    at the column's index: a text there is the tooltip, a [None] there
    gives the text "None", and a list with no entry at that index makes
    the request raise [IndexError]. *)
Theorem header_tooltip `{PyFloat} (WAVELENGTH_COLUMN ERROR_COLUMN : string)
  (h : heap) (self : LineListTableModel) (section : Z) (colname : string) :
  0 <= section ->
  colnames (h (_linelist self)) !! Z.to_nat section = Some colname ->
  let source := h (_linelist self) in
  let tooltip :=
    headerData WAVELENGTH_COLUMN ERROR_COLUMN h self section Qt.Horizontal
      (Some Qt.ToolTipRole) in
  (colname = WAVELENGTH_COLUMN \/ colname = ERROR_COLUMN ->
   forall u, units source !! Z.to_nat section = Some u ->
     tooltip = Ok (HeaderText (str_unit u)))
  /\ (colname <> WAVELENGTH_COLUMN -> colname <> ERROR_COLUMN ->
      (tooltips source = None \/ tooltips source = Some [] ->
       tooltip = Ok (HeaderText ""))
      /\ (forall ts,
            tooltips source = Some ts -> ts <> [] ->
            (forall t, ts !! Z.to_nat section = Some (Some t) ->
               tooltip = Ok (HeaderText t))
            /\ (ts !! Z.to_nat section = Some None ->
                tooltip = Ok (HeaderText "None"))
            /\ (ts !! Z.to_nat section = None ->
                tooltip = Raise IndexError))).
Proof.
  intros Hsec Hname source tooltip. subst source tooltip.
  unfold headerData. simpl.
  rewrite (py_index_front _ _ _ Hsec Hname). simpl. split.
  - intros Hrole u Hu.
    rewrite bool_decide_eq_true_2
      by (rewrite elem_of_cons, list_elem_of_singleton; exact Hrole).
    rewrite (py_index_front _ _ _ Hsec Hu). reflexivity.
  - intros HW HE.
    rewrite bool_decide_eq_false_2
      by (rewrite elem_of_cons, list_elem_of_singleton; tauto).
    split.
    + intros [Hnone|Hnil]; rewrite ?Hnone, ?Hnil; reflexivity.
    + intros ts Hts Hne. rewrite Hts.
      destruct ts as [|t0 ts']; [congruence|]. simpl.
      split_and!.
      * intros t Ht. now rewrite (py_index_front _ _ _ Hsec Ht).
      * intros Ht. now rewrite (py_index_front _ _ _ Hsec Ht).
      * intros Ht. rewrite py_index_beyond; [reflexivity|].
        apply lookup_ge_None_1 in Ht. unfold len. lia.
Qed.

(** C6, as the claim has it, fails: the second column of a list whose
    tooltips hold one entry only has no tooltip data, yet its tooltip is
    not the empty string: the request raises [IndexError]. *)
Lemma header_tooltip_missing_entry_raises :
  ~ (forall (F : PyFloat) (WAVELENGTH_COLUMN ERROR_COLUMN : string)
       (h : heap) (self : LineListTableModel) (section : Z)
       (colname : string),
       0 <= section ->
       colnames (h (_linelist self)) !! Z.to_nat section = Some colname ->
       colname <> WAVELENGTH_COLUMN -> colname <> ERROR_COLUMN ->
       (forall ts t,
          tooltips (h (_linelist self)) = Some ts ->
          ts !! Z.to_nat section = Some (Some t) ->
          headerData WAVELENGTH_COLUMN ERROR_COLUMN h self section
            Qt.Horizontal (Some Qt.ToolTipRole) = Ok (HeaderText t))
       /\ ((forall ts t,
              tooltips (h (_linelist self)) = Some ts ->
              ts !! Z.to_nat section <> Some (Some t)) ->
           headerData WAVELENGTH_COLUMN ERROR_COLUMN h self section
             Qt.Horizontal (Some Qt.ToolTipRole) = Ok (HeaderText ""))).
Proof.
  intros Hclaim.
  destruct (Hclaim Decimal.decimal_float "Wavelength" "Error"
              (Examples.store Examples.short_tooltips) Examples.model 1
              "Species") as [_ Hempty];
    [lia | reflexivity | discriminate | discriminate |].
  assert (Hbad : @Raise header IndexError = Ok (HeaderText "")).
  { apply Hempty. intros ts t [= <-]. discriminate. }
  discriminate Hbad.
Qed.

Lemma header_tooltip_witness :
  0 <= 0
  /\ colnames (Examples.store Examples.three_lines
                (_linelist Examples.model)) !! Z.to_nat 0
     = Some "Wavelength"
  /\ headerData "Wavelength" "Error" (Examples.store Examples.three_lines)
       Examples.model 0 Qt.Horizontal (Some Qt.ToolTipRole)
     = Ok (HeaderText "Angstrom").
Proof.
  split; [lia|]. split; [reflexivity|].
  refine (proj1 (header_tooltip "Wavelength" "Error"
                   (Examples.store Examples.three_lines) Examples.model 0
                   "Wavelength" _ eq_refl)
            (or_introl eq_refl) (Some "Angstrom") eq_refl).
  lia.
Defined.

(** ** The comparator *)

Lemma ltb_lex_lt (a b : string) : String.ltb a b = true <-> lex_lt a b.
Proof.
  unfold String.ltb. split.
  - revert b. induction a as [|c1 a IH]; intros [|c2 b]; simpl;
      try discriminate.
    + intros _. constructor.
    + unfold Ascii.compare.
      destruct (N.compare_spec (N_of_ascii c1) (N_of_ascii c2)) as [Heq|Hlt|Hgt];
        try discriminate.
      * intros Hcmp.
        assert (c1 = c2) as <-
          by (rewrite <- (ascii_N_embedding c1), <- (ascii_N_embedding c2);
              now f_equal).
        apply lex_lt_tail, IH.
        destruct (String.compare a b); congruence.
      * intros _. now apply lex_lt_head.
  - induction 1 as [c s|c1 c2 s1 s2 Hlt|c s1 s2 Hlt IH]; simpl.
    + reflexivity.
    + unfold Ascii.compare.
      apply N.compare_lt_iff in Hlt. now rewrite Hlt.
    + unfold Ascii.compare. rewrite N.compare_refl. exact IH.
Qed.

(** C2: on two cell texts the comparator never raises; when both texts
    parse as floats it returns their numeric comparison, and when either
    parse raises it returns the lexicographic comparison of the texts by
    character code.  With decimal literals, "3.5" is less than "10". *)
Theorem lessThan_numeric_else_lexicographic :
  (forall (F : PyFloat) (left right : string),
     let result := lessThan_data (QString left) (QString right) in
     (exists b, result = Ok b)
     /\ (forall l r, float left = Ok l -> float right = Ok r ->
           result = Ok (float_lt l r))
     /\ (raises (float left) \/ raises (float right) ->
         exists b, result = Ok b /\ (b = true <-> lex_lt left right)))
  /\ @lessThan_data Decimal.decimal_float (QString "3.5") (QString "10")
     = Ok true
  /\ @lessThan_data Decimal.decimal_float (QString "12") (QString "abc")
     = Ok true.
Proof.
  split; [|split; reflexivity].
  intros F left right result. subst result.
  unfold lessThan_data, try_except. simpl.
  destruct (float left) as [l|e1] eqn:Hl; simpl;
    [destruct (float right) as [r|e2] eqn:Hr; simpl|].
  - split_and!; [eauto | intros ? ? [= <-] [= <-]; reflexivity |].
    intros [[e He]|[e He]]; discriminate He.
  - split_and!; [eauto | intros ? ? _ [=] |].
    intros _. eexists. split; [reflexivity | apply ltb_lex_lt].
  - split_and!; [eauto | intros ? ? [=] |].
    intros _. eexists. split; [reflexivity | apply ltb_lex_lt].
Qed.

(** ** The wavelength-range dialog *)

Section Range.

Context `{PyFloat}.
Variable WAVELENGTH_COLUMN : string.
Variable extract_range : LineList -> waverange -> result LineList.

Lemma column_cells_ok (i : nat) (rs : list (list cell)) (acc : list cell) :
  Forall (fun r => (i < length r)%nat) rs ->
  exists out,
    for_each (fun acc r => c ← py_index r (Z.of_nat i); mret (acc ++ [c]))
      rs acc = Ok out
    /\ length out = (length acc + length rs)%nat.
Proof.
  revert acc. induction rs as [|r rs IH]; intros acc Hall.
  - exists acc. simpl. split; [reflexivity | lia].
  - apply Forall_cons in Hall as [Hr Hall].
    destruct (lookup_lt_is_Some_2 r i Hr) as [c Hc].
    destruct (IH (acc ++ [c]) Hall) as (out & Hrun & Hlen).
    exists out. simpl.
    rewrite (py_index_front r (Z.of_nat i) c)
      by (try lia; now rewrite Nat2Z.id).
    simpl. split; [exact Hrun|].
    rewrite Hlen, length_app. simpl. lia.
Qed.

(** On a rectangular table with the named column, the column's data has
    one cell per row. *)
Lemma column_data_len (table : LineList) (colname : string) :
  colname ∈ colnames table -> rectangular table ->
  exists cells,
    column_data table colname = Ok cells /\ len cells = len (rows table).
Proof.
  intros Hin Hrect. unfold column_data.
  destruct (list_find (String.eqb colname) (colnames table))
    as [[i x]|] eqn:Hfind.
  - apply list_find_Some in Hfind as (Hi & _ & _).
    apply lookup_lt_Some in Hi.
    destruct (column_cells_ok i (rows table) []) as (out & Hrun & Hlen).
    + eapply Forall_impl; [exact Hrect|]. simpl. intros r Hr. lia.
    + exists out. split; [exact Hrun|]. unfold len. simpl in Hlen. lia.
  - exfalso.
    destruct (list_find_elem_of (String.eqb colname) (colnames table) colname)
      as [y Hy]; [assumption | | congruence].
    rewrite String.eqb_refl. exact I.
Qed.

(** A range read from the text fields has both bounds or none. *)
Lemma range_from_textfields_shape (self : LineListsWindow)
  (min_text max_text : QLineEdit) (amin amax : option Quantity) :
  _get_range_from_textfields self min_text max_text = Ok (amin, amax) ->
  is_present amin = is_present amax.
Proof.
  unfold _get_range_from_textfields.
  destruct (hasAcceptableInput min_text && hasAcceptableInput max_text);
    [|now intros [= <- <-]].
  destruct (float (text min_text)) as [a|]; simpl; [|discriminate].
  destruct (float (text max_text)) as [b|]; simpl; [|discriminate].
  destruct (float_ne b a); [|now intros [= <- <-]].
  destruct (py_index (listDataItems self) 0); simpl; [|discriminate].
  now intros [= <- <-].
Qed.

End Range.

(** C1, as the code has it: when both fields hold acceptable input that
    parses to equal numbers, the range is [(None, None)], and the count
    label comes back as it was passed in, whatever the line list and its
    range extraction are: nothing is filtered and no count is written. *)
Theorem degenerate_range_leaves_label `{PyFloat} (self : LineListsWindow)
  (min_text max_text : QLineEdit) (amin amax : pyfloat) :
  hasAcceptableInput min_text = true ->
  hasAcceptableInput max_text = true ->
  float (text min_text) = Ok amin ->
  float (text max_text) = Ok amax ->
  float_ne amax amin = false ->
  _get_range_from_textfields self min_text max_text = Ok (None, None)
  /\ forall (WAVELENGTH_COLUMN : string)
       (extract_range : LineList -> waverange -> result LineList)
       (line_list : LineList) (label : QLabel),
       _compute_nlines_in_waverange WAVELENGTH_COLUMN extract_range self
         line_list min_text max_text label = Ok label.
Proof.
  intros Hmin Hmax Hfmin Hfmax Hne.
  assert (Hrange :
    _get_range_from_textfields self min_text max_text = Ok (None, None)).
  { unfold _get_range_from_textfields.
    rewrite Hmin, Hmax, Hfmin. simpl. rewrite Hfmax. simpl.
    now rewrite Hne. }
  split; [exact Hrange|].
  intros W extract ll label. unfold _compute_nlines_in_waverange.
  now rewrite Hrange.
Qed.

Lemma degenerate_range_leaves_label_witness :
  hasAcceptableInput Examples.field_100 = true
  /\ Decimal.parse (text Examples.field_100) = Ok (1000 # 10)%Q
  /\ Decimal.ne (1000 # 10)%Q (1000 # 10)%Q = false
  /\ _compute_nlines_in_waverange "Wavelength" Examples.extract_range
       Examples.window Examples.three_lines Examples.field_100
       Examples.field_100 Examples.stale_label
     = Ok Examples.stale_label.
Proof.
  split_and!; [reflexivity | reflexivity | reflexivity |].
  apply (@degenerate_range_leaves_label Decimal.decimal_float
           Examples.window Examples.field_100 Examples.field_100
           (1000 # 10)%Q (1000 # 10)%Q);
    reflexivity.
Defined.

(** C1, as the claim has it, fails: with equal bounds the label of a
    three-line list still shows the count "1" written for an earlier
    range, not the number of rows of the list. *)
Lemma degenerate_range_count_not_total :
  ~ (forall (F : PyFloat) (WAVELENGTH_COLUMN : string)
       (extract_range : LineList -> waverange -> result LineList)
       (self : LineListsWindow) (line_list : LineList)
       (min_text max_text : QLineEdit) (label : QLabel)
       (amin amax : pyfloat),
       hasAcceptableInput min_text = true ->
       hasAcceptableInput max_text = true ->
       float (text min_text) = Ok amin ->
       float (text max_text) = Ok amax ->
       float_ne amax amin = false ->
       exists label',
         _compute_nlines_in_waverange WAVELENGTH_COLUMN extract_range self
           line_list min_text max_text label = Ok label'
         /\ label_text label' = pretty (len (rows line_list))).
Proof.
  intros Hclaim.
  destruct (Hclaim Decimal.decimal_float "Wavelength" Examples.extract_range
              Examples.window Examples.three_lines
              Examples.field_100 Examples.field_100
              Examples.stale_label (1000 # 10)%Q (1000 # 10)%Q
              eq_refl eq_refl eq_refl eq_refl eq_refl)
    as (label' & Hrun & Htext).
  vm_compute in Hrun. injection Hrun as <-.
  vm_compute in Htext. discriminate Htext.
Qed.




(** ** The comparator as an ordering *)

Lemma lex_lt_irrefl (s : string) : ~ lex_lt s s.
Proof.
  induction s as [|c s IH]; intros Hlt; inversion Hlt; subst.
  - lia.
  - now apply IH.
Qed.

Lemma lex_lt_trans (a b c : string) : lex_lt a b -> lex_lt b c -> lex_lt a c.
Proof.
  intros Hab. revert c.
  induction Hab as [x s|x y s t Hxy|x s t Hst IH]; intros c Hbc;
    inversion Hbc; subst.
  - constructor.
  - constructor.
  - apply lex_lt_head. lia.
  - now apply lex_lt_head.
  - now apply lex_lt_head.
  - apply lex_lt_tail. now apply IH.
Qed.

Lemma lex_lt_trichotomy (a b : string) : lex_lt a b \/ a = b \/ lex_lt b a.
Proof.
  revert b. induction a as [|x a IH]; intros [|y b].
  - right. now left.
  - left. constructor.
  - right. right. constructor.
  - destruct (N.lt_trichotomy (N_of_ascii x) (N_of_ascii y)) as [Hlt|[Heq|Hgt]].
    + left. now apply lex_lt_head.
    + assert (x = y) as <-
        by (rewrite <- (ascii_N_embedding x), <- (ascii_N_embedding y);
            now f_equal).
      destruct (IH b) as [Hlt|[->|Hgt]].
      * left. now apply lex_lt_tail.
      * right. now left.
      * right. right. now apply lex_lt_tail.
    + right. right. now apply lex_lt_head.
Qed.

(** When either text fails to parse, the comparator answers by the
    lexicographic order. *)
Lemma lessThan_data_text `{PyFloat} (a b : string) :
  raises (float a) \/ raises (float b) ->
  lessThan_data (QString a) (QString b) = Ok (String.ltb a b).
Proof.
  unfold lessThan_data, try_except. simpl.
  intros [[e He]|[e He]]; rewrite He; simpl; [reflexivity|].
  now destruct (float a).
Qed.

Lemma lessThan_data_text_lt `{PyFloat} (a b : string) :
  raises (float a) \/ raises (float b) ->
  lessThan_data (QString a) (QString b) = Ok true <-> lex_lt a b.
Proof.
  intros Hraise. rewrite (lessThan_data_text a b Hraise).
  rewrite <- ltb_lex_lt. split; [now intros [= ->] | now intros ->].
Qed.

(** X1: over texts that do not parse as floats the comparator is a strict
    total order: no text is below itself, the relation is transitive, and
    two different texts are ordered one way or the other. *)
Theorem lessThan_strict_order_on_text `{PyFloat} :
  let below a b := lessThan_data (QString a) (QString b) = Ok true in
  (forall a, raises (float a) -> ~ below a a)
  /\ (forall a b c,
        raises (float a) -> raises (float b) -> raises (float c) ->
        below a b -> below b c -> below a c)
  /\ (forall a b,
        raises (float a) -> raises (float b) ->
        below a b \/ a = b \/ below b a).
Proof.
  intros below. subst below. simpl. split_and!.
  - intros a Ha. rewrite lessThan_data_text_lt by now left.
    apply lex_lt_irrefl.
  - intros a b c Ha Hb Hc.
    rewrite !lessThan_data_text_lt by now left.
    apply lex_lt_trans.
  - intros a b Ha Hb.
    rewrite !lessThan_data_text_lt by now left.
    apply lex_lt_trichotomy.
Qed.

(** X2: over a column that mixes numeric and other texts the comparator
    is not transitive: with decimal literals, "10" is below "1a" and "1a"
    is below "9" by the lexicographic order, but "10" is not below "9",
    which are compared as numbers. *)
Theorem lessThan_not_transitive_on_mixed_texts :
  ~ (forall a b c : string,
       @lessThan_data Decimal.decimal_float (QString a) (QString b) = Ok true ->
       @lessThan_data Decimal.decimal_float (QString b) (QString c) = Ok true ->
       @lessThan_data Decimal.decimal_float (QString a) (QString c) = Ok true).
Proof.
  intros Htrans.
  specialize (Htrans "10" "1a" "9" eq_refl eq_refl).
  vm_compute in Htrans. discriminate Htrans.
Qed.

(** ** Lookups and comparisons on a built model *)

Lemma py_index_ok_iff {A : Type} (l : list A) (i : Z) :
  (exists a, py_index l i = Ok a) <-> - len l <= i < len l.
Proof.
  split.
  - intros [a Ha]. now apply py_index_inv in Ha.
  - intros Hi.
    assert (Hfront : forall j, 0 <= j < len l -> exists a, py_index l j = Ok a).
    { intros j Hj.
      destruct (lookup_lt_is_Some_2 l (Z.to_nat j)) as [a Ha];
        [unfold len in Hj; lia|].
      exists a. apply py_index_front; [lia | exact Ha]. }
    destruct (Z_lt_ge_dec i 0) as [Hneg|Hpos].
    + rewrite py_index_back by lia. apply Hfront. lia.
    + apply Hfront. lia.
Qed.

(** X3: for a source whose rows all have one cell per column name, a
    display-role lookup in the built model succeeds exactly for the row
    indices from [-rowCount] to [rowCount - 1] and the column indices from
    [-columnCount] to [columnCount - 1]. *)
Theorem data_succeeds_iff_in_range `{PyFloat} (h : heap) (linelist : loc) :
  rectangular (h linelist) ->
  exists self,
    __init__ h linelist = Ok self
    /\ forall (h' : heap) (i j : Z),
         (exists v, data h' self (mkIndex i j) (Some Qt.DisplayRole) = Ok v)
         <-> (- rowCount h' self <= i < rowCount h' self
              /\ - columnCount h' self <= j < columnCount h' self).
Proof.
  intros Hrect. eexists. split; [apply init_ok|].
  intros h' i j. unfold data, rowCount, columnCount. simpl.
  set (rs := rows (h linelist)) in *.
  assert (Hcols : forall r, r ∈ map render_row rs ->
            len r = match rs with [] => 0 | first :: _ => len first end).
  { intros r Hr. change (map render_row rs) with (render_row <$> rs) in Hr.
    apply list_elem_of_fmap in Hr as (r0 & -> & Hr0).
    rewrite len_render_row.
    unfold rectangular in Hrect. fold rs in Hrect.
    rewrite Forall_forall in Hrect.
    pose proof (Hrect r0 Hr0) as Hlen.
    destruct rs as [|first rest]; [now apply elem_of_nil in Hr0|].
    pose proof (Hrect first ltac:(left)) as Hfirst.
    unfold len. lia. }
  rewrite <- len_render_rows. fold rs.
  split.
  - intros [v Hv].
    destruct (py_index (map render_row rs) i) as [r|e] eqn:Hrow;
      [|discriminate Hv].
    simpl in Hv. split; [now apply py_index_inv in Hrow|].
    rewrite <- (Hcols r).
    + now apply py_index_inv in Hv.
    + unfold py_index in Hrow.
      destruct (_ || _); [discriminate|].
      destruct (_ !! _) eqn:Hl in Hrow; [|discriminate].
      injection Hrow as <-. eapply list_elem_of_lookup_2. exact Hl.
  - intros [Hi Hj].
    destruct (proj2 (py_index_ok_iff (map render_row rs) i) Hi) as [r Hrow].
    rewrite Hrow. simpl. apply py_index_ok_iff.
    rewrite (Hcols r); [exact Hj|].
    unfold py_index in Hrow.
    destruct (_ || _); [discriminate|].
    destruct (_ !! _) eqn:Hl in Hrow; [|discriminate].
    injection Hrow as <-. eapply list_elem_of_lookup_2. exact Hl.
Qed.

Lemma data_succeeds_iff_in_range_witness :
  rectangular Examples.three_lines
  /\ exists self,
       __init__ (Examples.store Examples.three_lines) 0%nat = Ok self
       /\ ((exists v, data (Examples.store Examples.three_lines) self
                        (mkIndex (-3) 1) (Some Qt.DisplayRole) = Ok v)
           <-> (- rowCount (Examples.store Examples.three_lines) self <= -3
                  < rowCount (Examples.store Examples.three_lines) self
                /\ - columnCount (Examples.store Examples.three_lines) self
                     <= 1
                     < columnCount (Examples.store Examples.three_lines) self)).
Proof.
  assert (Hrect : rectangular Examples.three_lines) by repeat constructor.
  split; [exact Hrect|].
  destruct (@data_succeeds_iff_in_range Decimal.decimal_float
              (Examples.store Examples.three_lines) 0%nat Hrect)
    as (self & Hinit & Hiff).
  exists self. split; [exact Hinit | apply Hiff].
Defined.

(** X4: comparing two cells of a built model, addressed by indices
    inside the source's rows, never raises: the comparator is applied to
    the display texts frozen at construction, whatever the heap holds at
    the time of the comparison. *)
Theorem lessThan_on_built_model `{PyFloat} (h : heap) (linelist : loc) :
  exists self,
    __init__ h linelist = Ok self
    /\ forall (h' : heap) (i1 j1 i2 j2 : Z) (r1 r2 : list cell) (c1 c2 : cell),
         0 <= i1 -> rows (h linelist) !! Z.to_nat i1 = Some r1 ->
         0 <= j1 -> r1 !! Z.to_nat j1 = Some c1 ->
         0 <= i2 -> rows (h linelist) !! Z.to_nat i2 = Some r2 ->
         0 <= j2 -> r2 !! Z.to_nat j2 = Some c2 ->
         lessThan h' self (mkIndex i1 j1) (mkIndex i2 j2)
         = lessThan_data (QString (display_text c1)) (QString (display_text c2))
         /\ exists b,
              lessThan h' self (mkIndex i1 j1) (mkIndex i2 j2) = Ok b.
Proof.
  eexists. split; [apply init_ok|].
  intros h' i1 j1 i2 j2 r1 r2 c1 c2 Hi1 Hr1 Hj1 Hc1 Hi2 Hr2 Hj2 Hc2.
  unfold lessThan, data. simpl.
  rewrite (py_index_render_rows _ _ _ Hi1 Hr1). simpl.
  rewrite (py_index_render_row _ _ _ Hj1 Hc1). simpl.
  rewrite (py_index_render_rows _ _ _ Hi2 Hr2). simpl.
  rewrite (py_index_render_row _ _ _ Hj2 Hc2). simpl.
  split; [reflexivity|].
  unfold lessThan_data, try_except. simpl.
  destruct (float (display_text c1)); simpl; [|eauto].
  destruct (float (display_text c2)); simpl; eauto.
Qed.

(** ** Headers read the live source *)

(** X5: header names are not frozen with the counts.  After the line list
    at the model's location is replaced, the horizontal header at the
    display role shows the column names of the replacement, while the
    column count is still the one computed at construction. *)
Theorem header_names_follow_source `{PyFloat}
  (WAVELENGTH_COLUMN ERROR_COLUMN : string) (h : heap) (linelist : loc)
  (source' : LineList) :
  exists self,
    __init__ h linelist = Ok self
    /\ columnCount (heap_set h linelist source') self = columnCount h self
    /\ forall (section : Z) (colname : string),
         0 <= section ->
         colnames source' !! Z.to_nat section = Some colname ->
         headerData WAVELENGTH_COLUMN ERROR_COLUMN
           (heap_set h linelist source') self section Qt.Horizontal
           (Some Qt.DisplayRole) = Ok (HeaderText colname).
Proof.
  eexists. split; [apply init_ok|]. split; [reflexivity|].
  intros section colname Hsec Hname.
  unfold headerData, heap_set. simpl. rewrite Nat.eqb_refl.
  now rewrite (py_index_front _ _ _ Hsec Hname).
Qed.

(** X6: header requests outside the lists they index raise [IndexError]:
    a section at or beyond the number of column names (or below its
    opposite) at either role, and, for a column that is neither the
    wavelength nor the error column, a section at or beyond the length of
    a non-empty tooltips list. *)
Theorem header_index_errors `{PyFloat}
  (WAVELENGTH_COLUMN ERROR_COLUMN : string) (h : heap)
  (self : LineListTableModel) (section : Z) :
  let source := h (_linelist self) in
  let header role :=
    headerData WAVELENGTH_COLUMN ERROR_COLUMN h self section Qt.Horizontal
      (Some role) in
  (len (colnames source) <= section \/ section < - len (colnames source) ->
   header Qt.DisplayRole = Raise IndexError
   /\ header Qt.ToolTipRole = Raise IndexError)
  /\ (forall (colname : string) (ts : list (option string)),
        0 <= section ->
        colnames source !! Z.to_nat section = Some colname ->
        colname <> WAVELENGTH_COLUMN -> colname <> ERROR_COLUMN ->
        tooltips source = Some ts -> ts <> [] -> len ts <= section ->
        header Qt.ToolTipRole = Raise IndexError).
Proof.
  intros source header. subst source header. unfold headerData. simpl.
  split.
  - intros Hout.
    assert (Hidx : py_index (colnames (h (_linelist self))) section
                   = Raise IndexError)
      by (destruct Hout; [now apply py_index_beyond | now apply py_index_below]).
    now rewrite Hidx.
  - intros colname ts Hsec Hname HW HE Hts Hne Hlen.
    rewrite (py_index_front _ _ _ Hsec Hname). simpl.
    rewrite bool_decide_eq_false_2
      by (rewrite elem_of_cons, list_elem_of_singleton; tauto).
    rewrite Hts. destruct ts as [|t ts']; [congruence|]. simpl.
    now rewrite py_index_beyond.
Qed.

(** ** Ranges read from the text fields *)

(** X7: a range returned by [_get_range_from_textfields] is either
    absent on both sides or present on both; when present, both fields
    held acceptable input, the two bounds are the parsed numbers, they
    differ, and both carry the spectral axis unit of the plot's first
    data item. *)
Theorem range_from_textfields_spec `{PyFloat} (self : LineListsWindow)
  (min_text max_text : QLineEdit) (amin amax : option Quantity) :
  _get_range_from_textfields self min_text max_text = Ok (amin, amax) ->
  (amin = None /\ amax = None)
  \/ (exists (a b : pyfloat) (item : PlotDataItem),
        hasAcceptableInput min_text = true
        /\ hasAcceptableInput max_text = true
        /\ float (text min_text) = Ok a
        /\ float (text max_text) = Ok b
        /\ float_ne b a = true
        /\ listDataItems self !! 0%nat = Some item
        /\ amin = Some (mkQuantity a (spectral_axis_unit item))
        /\ amax = Some (mkQuantity b (spectral_axis_unit item))).
Proof.
  unfold _get_range_from_textfields.
  destruct (hasAcceptableInput min_text) eqn:Hmin;
    [|intros [= <- <-]; now left].
  destruct (hasAcceptableInput max_text) eqn:Hmax;
    [|intros [= <- <-]; now left].
  simpl.
  destruct (float (text min_text)) as [a|] eqn:Ha; simpl; [|discriminate].
  destruct (float (text max_text)) as [b|] eqn:Hb; simpl; [|discriminate].
  destruct (float_ne b a) eqn:Hne; [|intros [= <- <-]; now left].
  destruct (listDataItems self) as [|item items] eqn:Hitems;
    [discriminate|].
  intros [= <- <-]. right. exists a, b, item. now split_and!.
Qed.

Lemma range_from_textfields_spec_witness :
  _get_range_from_textfields Examples.window (mkLineEdit "4000" true)
    (mkLineEdit "5000" true)
  = Ok (Some (mkQuantity (inject_Z 4000) "Angstrom"),
        Some (mkQuantity (inject_Z 5000) "Angstrom"))
  /\ ((Some (mkQuantity (inject_Z 4000) "Angstrom") = None
       /\ Some (mkQuantity (inject_Z 5000) "Angstrom") = None)
      \/ (exists (a b : Q) (item : PlotDataItem),
            hasAcceptableInput (mkLineEdit "4000" true) = true
            /\ hasAcceptableInput (mkLineEdit "5000" true) = true
            /\ Decimal.parse (text (mkLineEdit "4000" true)) = Ok a
            /\ Decimal.parse (text (mkLineEdit "5000" true)) = Ok b
            /\ Decimal.ne b a = true
            /\ listDataItems Examples.window !! 0%nat = Some item
            /\ Some (mkQuantity (inject_Z 4000) "Angstrom")
               = Some (mkQuantity a (spectral_axis_unit item))
            /\ Some (mkQuantity (inject_Z 5000) "Angstrom")
               = Some (mkQuantity b (spectral_axis_unit item)))).
Proof.
  split; [reflexivity|].
  apply (@range_from_textfields_spec Decimal.decimal_float Examples.window
           (mkLineEdit "4000" true) (mkLineEdit "5000" true)).
  reflexivity.
Defined.

(** X8: when both fields hold acceptable input that parses to two
    different numbers and the plot has no data item, reading the range
    raises [IndexError], and so does the line count that starts by
    reading it. *)
Theorem range_needs_a_data_item `{PyFloat} (self : LineListsWindow)
  (min_text max_text : QLineEdit) (a b : pyfloat) :
  hasAcceptableInput min_text = true ->
  hasAcceptableInput max_text = true ->
  float (text min_text) = Ok a ->
  float (text max_text) = Ok b ->
  float_ne b a = true ->
  listDataItems self = [] ->
  _get_range_from_textfields self min_text max_text = Raise IndexError
  /\ forall (WAVELENGTH_COLUMN : string)
       (extract_range : LineList -> waverange -> result LineList)
       (line_list : LineList) (label : QLabel),
       _compute_nlines_in_waverange WAVELENGTH_COLUMN extract_range self
         line_list min_text max_text label = Raise IndexError.
Proof.
  intros Hmin Hmax Ha Hb Hne Hitems.
  assert (Hrange :
    _get_range_from_textfields self min_text max_text = Raise IndexError).
  { unfold _get_range_from_textfields.
    rewrite Hmin, Hmax, Ha. simpl. rewrite Hb. simpl.
    now rewrite Hne, Hitems. }
  split; [exact Hrange|].
  intros W extract ll label. unfold _compute_nlines_in_waverange.
  now rewrite Hrange.
Qed.

Lemma range_needs_a_data_item_witness :
  hasAcceptableInput (mkLineEdit "4000" true) = true
  /\ Decimal.parse "4000" = Ok (inject_Z 4000)
  /\ Decimal.parse "5000" = Ok (inject_Z 5000)
  /\ Decimal.ne (inject_Z 5000) (inject_Z 4000) = true
  /\ _get_range_from_textfields (mkWindow []) (mkLineEdit "4000" true)
       (mkLineEdit "5000" true) = Raise IndexError.
Proof.
  split_and!; [reflexivity | reflexivity | reflexivity | reflexivity |].
  apply (@range_needs_a_data_item Decimal.decimal_float (mkWindow [])
           (mkLineEdit "4000" true) (mkLineEdit "5000" true)
           (inject_Z 4000) (inject_Z 5000));
    reflexivity.
Defined.

(** X9: when either text field lacks acceptable input, the other field
    is ignored: the range is absent on both sides, the source's range
    extraction plays no part and the count label comes back unchanged. *)
Theorem unacceptable_field_cancels_range `{PyFloat} (self : LineListsWindow)
  (min_text max_text : QLineEdit) :
  hasAcceptableInput min_text = false \/ hasAcceptableInput max_text = false ->
  _get_range_from_textfields self min_text max_text = Ok (None, None)
  /\ forall (WAVELENGTH_COLUMN : string)
       (extract_range : LineList -> waverange -> result LineList)
       (line_list : LineList) (label : QLabel),
       _compute_nlines_in_waverange WAVELENGTH_COLUMN extract_range self
         line_list min_text max_text label = Ok label.
Proof.
  intros Hbad.
  assert (Hrange :
    _get_range_from_textfields self min_text max_text = Ok (None, None)).
  { unfold _get_range_from_textfields.
    destruct Hbad as [-> | ->]; [reflexivity|].
    now rewrite andb_false_r. }
  split; [exact Hrange|].
  intros W extract ll label. unfold _compute_nlines_in_waverange.
  now rewrite Hrange.
Qed.

Lemma unacceptable_field_cancels_range_witness :
  (hasAcceptableInput (mkLineEdit "4000" true) = false
   \/ hasAcceptableInput (mkLineEdit "" false) = false)
  /\ _compute_nlines_in_waverange "Wavelength" Examples.extract_range
       Examples.window Examples.three_lines (mkLineEdit "4000" true)
       (mkLineEdit "" false) Examples.stale_label
     = Ok Examples.stale_label.
Proof.
  split; [now right|].
  apply (@unacceptable_field_cancels_range Decimal.decimal_float
           Examples.window (mkLineEdit "4000" true) (mkLineEdit "" false)).
  now right.
Defined.

(** X10: the count label is styled black when the extracted list has
    fewer than 150 rows and red from 150 rows on. *)
Theorem nlines_warning_colour `{PyFloat} (WAVELENGTH_COLUMN : string)
  (extract_range : LineList -> waverange -> result LineList)
  (line_list extracted : LineList) (amin amax : option Quantity)
  (label : QLabel) :
  is_present amin || is_present amax = true ->
  extract_range line_list (amin, amax) = Ok extracted ->
  WAVELENGTH_COLUMN ∈ colnames extracted ->
  rectangular extracted ->
  exists label',
    nlines_in_waverange WAVELENGTH_COLUMN extract_range line_list
      (amin, amax) label = Ok label'
    /\ (len (rows extracted) < 150 -> styleSheet label' = "color:black")
    /\ (150 <= len (rows extracted) -> styleSheet label' = "color:red").
Proof.
  intros Hpresent Hextract Hcol Hrect.
  destruct (column_data_len extracted WAVELENGTH_COLUMN Hcol Hrect)
    as (cells & Hdata & Hlen).
  eexists. unfold nlines_in_waverange.
  rewrite Hpresent, Hextract. simpl. rewrite Hdata. simpl.
  split; [reflexivity|]. rewrite Hlen. unfold NLINES_WARN.
  split; intros Hn.
  - now rewrite (proj2 (Z.ltb_lt _ _) Hn).
  - now rewrite (proj2 (Z.ltb_ge _ _) Hn).
Qed.

Lemma nlines_warning_colour_witness :
  exists label',
    nlines_in_waverange "Wavelength" Examples.extract_range
      Examples.three_lines Examples.from_4000 (mkLabel "" "") = Ok label'
    /\ styleSheet label' = "color:black".
Proof.
  destruct (@nlines_warning_colour Decimal.decimal_float
              "Wavelength" Examples.extract_range
              Examples.three_lines Examples.two_lines
              Examples.from_4000.1 Examples.from_4000.2
              (mkLabel "" "") eq_refl eq_refl)
    as (label' & Hrun & Hblack & _).
  - apply elem_of_cons. left. reflexivity.
  - repeat constructor.
  - exists label'. split; [exact Hrun|]. apply Hblack.
    unfold len. simpl. lia.
Defined.

(** ** Tab widgets *)

(** A loop over [range(len(l))] that reads [l] at the loop index is a
    loop over the elements of [l]. *)
Lemma fold_range_elements {A B : Type} (f : B -> Z -> B) (g : B -> A -> B)
  (l : list A) :
  (forall pre x suf acc, l = pre ++ x :: suf -> f acc (len pre) = g acc x) ->
  forall acc, fold_left f (seqZ 0 (len l)) acc = fold_left g l acc.
Proof.
  intros Hstep.
  assert (Hgen : forall suf pre acc, l = pre ++ suf ->
            fold_left f (seqZ (len pre) (len suf)) acc = fold_left g suf acc).
  { induction suf as [|x suf IH]; intros pre acc Hl; [reflexivity|].
    rewrite seqZ_cons by (unfold len; simpl; lia). simpl.
    rewrite (Hstep pre x suf acc Hl).
    replace (Z.succ (len pre)) with (len (pre ++ [x]))
      by (rewrite len_app; unfold len; simpl; lia).
    replace (Z.pred (len (x :: suf))) with (len suf)
      by (unfold len; simpl; lia).
    apply IH. now rewrite <- app_assoc. }
  intros acc. exact (Hgen l [] acc eq_refl).
Qed.

Section TabLemmas.

Context {W : Type}.
Implicit Types (tabs pre suf : list (string * W)) (tab : string * W).

Lemma validIndex_middle pre tab suf :
  QTabWidget.validIndex (pre ++ tab :: suf) (len pre) = true.
Proof.
  unfold QTabWidget.validIndex, QTabWidget.count.
  rewrite len_app. apply andb_true_intro.
  split; [apply Z.leb_le | apply Z.ltb_lt]; unfold len; simpl; lia.
Qed.

Lemma validIndex_end pre :
  QTabWidget.validIndex pre (len pre) = false.
Proof.
  unfold QTabWidget.validIndex, QTabWidget.count.
  now rewrite Z.ltb_irrefl, andb_false_r.
Qed.

Lemma tabText_middle pre tab suf :
  QTabWidget.tabText (pre ++ tab :: suf) (len pre) = tab.1.
Proof.
  unfold QTabWidget.tabText. rewrite validIndex_middle.
  unfold len. rewrite Nat2Z.id. now rewrite list_lookup_middle.
Qed.

Lemma widget_middle pre tab suf :
  QTabWidget.widget (pre ++ tab :: suf) (len pre) = Some tab.2.
Proof.
  unfold QTabWidget.widget. rewrite validIndex_middle.
  unfold len. rewrite Nat2Z.id. now rewrite list_lookup_middle.
Qed.

Lemma removeTab_middle pre tab suf :
  QTabWidget.removeTab (pre ++ tab :: suf) (len pre) = pre ++ suf.
Proof.
  unfold QTabWidget.removeTab. rewrite validIndex_middle.
  unfold len. rewrite Nat2Z.id. apply delete_middle.
Qed.

Lemma removeTab_invalid tabs index :
  QTabWidget.validIndex tabs index = false ->
  QTabWidget.removeTab tabs index = tabs.
Proof. unfold QTabWidget.removeTab. now intros ->. Qed.

(** Inserting at the position [len pre] of [pre ++ suf] puts the tab
    between the two parts, also when [suf] is empty and the index is one
    past the end. *)
Lemma insertTab_at pre suf (page : W) (label : string) :
  QTabWidget.insertTab (pre ++ suf) (len pre) page label
  = pre ++ (label, page) :: suf.
Proof.
  unfold QTabWidget.insertTab. destruct suf as [|tab suf].
  - rewrite app_nil_r, validIndex_end. reflexivity.
  - rewrite validIndex_middle. unfold len. rewrite Nat2Z.id.
    now rewrite take_app_length, drop_app_length.
Qed.

End TabLemmas.

Section WindowLemmas.

Context `{PyFloat}.
Implicit Types (tabs pre suf : list (string * page)).

(** The first tab labelled [PLOTTED] gets the new pane as its page. *)
Lemma replace_plotted_found pre old suf (pane : PlottedLinesPane) :
  PLOTTED ∉ pre.*1 ->
  replace_plotted (pre ++ (PLOTTED, old) :: suf) pane
    (seqZ 0 (len (pre ++ (PLOTTED, old) :: suf)))
  = Some (pre ++ (PLOTTED, PlottedLines pane) :: suf).
Proof.
  set (tabs := pre ++ (PLOTTED, old) :: suf).
  assert (Hgen : forall rest done_,
            pre = done_ ++ rest -> PLOTTED ∉ rest.*1 ->
            replace_plotted tabs pane
              (seqZ (len done_) (len (rest ++ (PLOTTED, old) :: suf)))
            = Some (pre ++ (PLOTTED, PlottedLines pane) :: suf)).
  { induction rest as [|tab rest IH]; intros done_ Hpre Hnot.
    - rewrite app_nil_r in Hpre. subst done_.
      rewrite seqZ_cons by (unfold len; simpl; lia). simpl.
      unfold tabs. rewrite tabText_middle. simpl.
      rewrite removeTab_middle. now rewrite insertTab_at.
    - rewrite seqZ_cons by (unfold len; simpl; lia). simpl.
      assert (Htext : QTabWidget.tabText tabs (len done_) = tab.1)
        by (unfold tabs; rewrite Hpre, <- app_assoc; apply tabText_middle).
      rewrite Htext.
      rewrite fmap_cons, not_elem_of_cons in Hnot. destruct Hnot as [Hne Hnot].
      destruct (String.eqb_spec tab.1 PLOTTED) as [Heq|_]; [congruence|].
      replace (Z.succ (len done_)) with (len (done_ ++ [tab]))
        by (rewrite len_app; unfold len; simpl; lia).
      replace (Z.pred (len (tab :: rest ++ (PLOTTED, old) :: suf)))
        with (len (rest ++ (PLOTTED, old) :: suf))
        by (unfold len; simpl; lia).
      apply IH; [now rewrite <- app_assoc | assumption]. }
  intros Hnot. exact (Hgen pre [] eq_refl Hnot).
Qed.

Lemma replace_plotted_absent tabs (pane : PlottedLinesPane) :
  PLOTTED ∉ tabs.*1 ->
  replace_plotted tabs pane (seqZ 0 (len tabs)) = None.
Proof.
  assert (Hgen : forall rest done_,
            tabs = done_ ++ rest -> PLOTTED ∉ rest.*1 ->
            replace_plotted tabs pane (seqZ (len done_) (len rest)) = None).
  { induction rest as [|tab rest IH]; intros done_ Htabs Hnot;
      [reflexivity|].
    rewrite seqZ_cons by (unfold len; simpl; lia). simpl.
    assert (Htext : QTabWidget.tabText tabs (len done_) = tab.1)
      by (rewrite Htabs; apply tabText_middle).
    rewrite Htext.
    rewrite fmap_cons, not_elem_of_cons in Hnot. destruct Hnot as [Hne Hnot].
    destruct (String.eqb_spec tab.1 PLOTTED) as [Heq|_]; [congruence|].
    replace (Z.succ (len done_)) with (len (done_ ++ [tab]))
      by (rewrite len_app; unfold len; simpl; lia).
    replace (Z.pred (len (tab :: rest))) with (len rest)
      by (unfold len; simpl; lia).
    apply IH; [now rewrite Htabs, <- app_assoc | assumption]. }
  intros Hnot. exact (Hgen tabs [] eq_refl Hnot).
Qed.

(** The pane built for a list of plotted lines. *)
Lemma PlottedLinesPane_init_ok (h : heap) (linelist : loc) :
  exists pane,
    PlottedLinesPane_init h linelist = Ok pane
    /\ plotted_lines pane = linelist
    /\ (plotted_view pane = None <-> rows (h linelist) = []).
Proof.
  unfold PlottedLinesPane_init. rewrite init_ok. simpl.
  unfold rowCount. simpl.
  destruct (rows (h linelist)) as [|r rs] eqn:Hrows.
  - eexists. split; [reflexivity|]. simpl. tauto.
  - assert (Hpos : (0 <? len (r :: rs)) = true)
      by (apply Z.ltb_lt; unfold len; simpl; lia).
    rewrite Hpos. eexists. split; [reflexivity|]. simpl.
    split; [reflexivity|]. split; discriminate.
Qed.

End WindowLemmas.

(** ** The tab of the plotted lines *)

Section PlottedTab.

Context `{PyFloat}.
Implicit Types (tabs pre suf : list (string * page)).

Lemma first_plotted_split tabs :
  PLOTTED ∈ tabs.*1 ->
  exists pre old suf,
    tabs = pre ++ (PLOTTED, old) :: suf /\ PLOTTED ∉ pre.*1.
Proof.
  induction tabs as [|[label pg] tabs IH]; simpl; intros Hin.
  - now apply elem_of_nil in Hin.
  - destruct (String.eqb_spec label PLOTTED) as [->|Hne].
    + exists [], pg, tabs. split; [reflexivity|]. simpl. apply not_elem_of_nil.
    + apply elem_of_cons in Hin as [Heq|Hin]; [congruence|].
      destruct (IH Hin) as (pre & old & suf & -> & Hnot).
      exists ((label, pg) :: pre), old, suf. split; [reflexivity|].
      simpl. apply not_elem_of_cons. split; [congruence | assumption].
Qed.

Lemma displayPlottedLines_run (h : heap) (self : WindowWidgets)
  (linelist : loc) :
  exists pane,
    PlottedLinesPane_init h linelist = Ok pane
    /\ displayPlottedLines h self linelist
       = Ok (mkWidgets
               (match replace_plotted (tabWidget self) pane
                        (seqZ 0 (len (tabWidget self))) with
                | Some tabs' => tabs'
                | None => tabWidget self ++ [(PLOTTED, PlottedLines pane)]
                end)
               (Some pane) (lines_selected_label self)).
Proof.
  destruct (PlottedLinesPane_init_ok h linelist) as (pane & Hpane & _).
  exists pane. split; [exact Hpane|].
  unfold displayPlottedLines. rewrite Hpane. simpl.
  unfold QTabWidget.count.
  destruct (replace_plotted _ _ _); [reflexivity|].
  rewrite <- (app_nil_r (tabWidget self)) at 1.
  now rewrite insertTab_at.
Qed.

(** X11: [displayPlottedLines] always succeeds and records the new pane.
    If a tab is labelled "Plotted", the first such tab gets the new pane
    as its page and every other tab stays as it is; otherwise a tab
    labelled "Plotted" is appended.  So the tab labels are unchanged in
    the first case and extended by "Plotted" in the second. *)
Theorem displayPlottedLines_effect (h : heap) (self : WindowWidgets)
  (linelist : loc) :
  exists pane self',
    displayPlottedLines h self linelist = Ok self'
    /\ plotted_lines pane = linelist
    /\ _plotted_lines_pane self' = Some pane
    /\ lines_selected_label self' = lines_selected_label self
    /\ (forall pre old suf,
          tabWidget self = pre ++ (PLOTTED, old) :: suf ->
          PLOTTED ∉ pre.*1 ->
          tabWidget self' = pre ++ (PLOTTED, PlottedLines pane) :: suf)
    /\ (PLOTTED ∉ (tabWidget self).*1 ->
        tabWidget self' = tabWidget self ++ [(PLOTTED, PlottedLines pane)])
    /\ (tabWidget self').*1
       = if bool_decide (PLOTTED ∈ (tabWidget self).*1)
         then (tabWidget self).*1
         else (tabWidget self).*1 ++ [PLOTTED].
Proof.
  destruct (PlottedLinesPane_init_ok h linelist) as (pane0 & Hpane0 & Hll & _).
  destruct (displayPlottedLines_run h self linelist) as (pane & Hpane & Hrun).
  assert (pane0 = pane) as -> by congruence.
  eexists pane, _. split; [exact Hrun|]. simpl.
  assert (Hfound : forall pre old suf,
            tabWidget self = pre ++ (PLOTTED, old) :: suf ->
            PLOTTED ∉ pre.*1 ->
            match replace_plotted (tabWidget self) pane
                    (seqZ 0 (len (tabWidget self))) with
            | Some tabs' => tabs'
            | None => tabWidget self ++ [(PLOTTED, PlottedLines pane)]
            end = pre ++ (PLOTTED, PlottedLines pane) :: suf).
  { intros pre old suf Htabs Hnot. rewrite Htabs.
    now rewrite replace_plotted_found. }
  assert (Habsent : PLOTTED ∉ (tabWidget self).*1 ->
            match replace_plotted (tabWidget self) pane
                    (seqZ 0 (len (tabWidget self))) with
            | Some tabs' => tabs'
            | None => tabWidget self ++ [(PLOTTED, PlottedLines pane)]
            end = tabWidget self ++ [(PLOTTED, PlottedLines pane)]).
  { intros Hnot. now rewrite replace_plotted_absent. }
  split_and!; try reflexivity; try assumption.
  destruct (decide (PLOTTED ∈ (tabWidget self).*1)) as [Hin|Hnot].
  - rewrite bool_decide_eq_true_2 by assumption.
    destruct (first_plotted_split _ Hin) as (pre & old & suf & Htabs & Hnot).
    rewrite (Hfound pre old suf Htabs Hnot), Htabs.
    now rewrite !fmap_app, !fmap_cons.
  - rewrite bool_decide_eq_false_2 by assumption.
    rewrite (Habsent Hnot). now rewrite fmap_app.
Qed.

Lemma erase_last tabs (tab : string * page) (pane : option PlottedLinesPane)
  (label : QLabel) :
  tabWidget (erasePlottedLines (mkWidgets (tabs ++ [tab]) pane label)) = tabs.
Proof.
  unfold erasePlottedLines, QTabWidget.count. simpl.
  replace (len (tabs ++ [tab]) - 1) with (len tabs)
    by (rewrite len_app; unfold len; simpl; lia).
  rewrite removeTab_middle. apply app_nil_r.
Qed.

(** X12: [erasePlottedLines] removes the last tab, whatever its label,
    and keeps the recorded pane.  After [displayPlottedLines] it gives
    back the tabs there were before when none of them was labelled
    "Plotted"; when a "Plotted" tab was there and was not the last tab,
    it is the last tab that goes and the "Plotted" tab stays. *)
Theorem erasePlottedLines_after_display (h : heap) (self : WindowWidgets)
  (linelist : loc) :
  (forall tabs tab,
     tabWidget self = tabs ++ [tab] ->
     tabWidget (erasePlottedLines self) = tabs)
  /\ exists pane self',
       displayPlottedLines h self linelist = Ok self'
       /\ _plotted_lines_pane (erasePlottedLines self') = Some pane
       /\ (PLOTTED ∉ (tabWidget self).*1 ->
           tabWidget (erasePlottedLines self') = tabWidget self)
       /\ (forall pre old suf last,
             tabWidget self = pre ++ (PLOTTED, old) :: suf ++ [last] ->
             PLOTTED ∉ pre.*1 ->
             tabWidget (erasePlottedLines self')
             = pre ++ (PLOTTED, PlottedLines pane) :: suf).
Proof.
  split.
  - intros tabs tab Htabs. destruct self as [t p l]. simpl in Htabs.
    subst t. apply erase_last.
  - destruct (displayPlottedLines_effect h self linelist)
      as (pane & self' & Hrun & _ & Hpane & _ & Hfound & Habsent & _).
    exists pane, self'. split; [exact Hrun|].
    split; [exact Hpane|]. split.
    + intros Hnot. specialize (Habsent Hnot).
      destruct self' as [t p l]. simpl in Habsent. subst t.
      apply erase_last.
    + intros pre old suf last Htabs Hnot.
      specialize (Hfound pre old (suf ++ [last]) Htabs Hnot).
      destruct self' as [t p l]. simpl in Hfound. subst t.
      change (pre ++ (PLOTTED, PlottedLines pane) :: suf ++ [last])
        with (pre ++ ((PLOTTED, PlottedLines pane) :: suf) ++ [last]).
      rewrite app_assoc. apply erase_last.
Qed.

Lemma fold_app_concat {A B : Type} (f : A -> list B) (l : list A)
  (acc : list B) :
  fold_left (fun result x => result ++ f x) l acc = acc ++ concat (map f l).
Proof.
  revert acc. induction l as [|x l IH]; intros acc; simpl.
  - now rewrite app_nil_r.
  - rewrite IH. now rewrite <- app_assoc.
Qed.

(** The two loops of [_getPanes] collect, tab after tab, the panes of
    the tab widgets that are not labelled "Plotted". *)
Lemma getPanes_flat (self : WindowWidgets) :
  _getPanes self = concat (map tab_panes (tabWidget self)).
Proof.
  unfold _getPanes, QTabWidget.count.
  rewrite (fold_range_elements _
             (fun result tab => result ++ tab_panes tab)).
  - now rewrite fold_app_concat.
  - intros pre tab suf acc Htabs. rewrite Htabs.
    rewrite widget_middle, tabText_middle. unfold tab_panes.
    destruct tab.2 as [widget| |]; rewrite ?app_nil_r; try reflexivity.
    destruct (String.eqb tab.1 PLOTTED); simpl;
      [now rewrite app_nil_r|].
    unfold QTabWidget.count.
    rewrite (fold_range_elements _ (fun result sub => result ++ [sub.2])).
    + rewrite fold_app_concat. f_equal. clear.
      induction widget as [|sub widget IH]; simpl; [reflexivity|].
      now rewrite IH.
    + intros pre' sub suf' acc' ->. unfold append_panes.
      now rewrite widget_middle.
Qed.

(** X13: [_getPanes] returns, in tab order, the panes of the tabs that
    hold a tab widget and are not labelled "Plotted", [_getTableViews]
    their table views in the same order, and neither changes when
    [displayPlottedLines] shows a list of plotted lines. *)
Theorem getPanes_skips_plotted (h : heap) (self : WindowWidgets)
  (linelist : loc) :
  _getPanes self = concat (map tab_panes (tabWidget self))
  /\ _getTableViews self = map table_view (_getPanes self)
  /\ exists self',
       displayPlottedLines h self linelist = Ok self'
       /\ _getPanes self' = _getPanes self
       /\ _getTableViews self' = _getTableViews self.
Proof.
  split; [apply getPanes_flat|]. split; [reflexivity|].
  destruct (displayPlottedLines_effect h self linelist)
    as (pane & self' & Hrun & _ & _ & _ & Hfound & Habsent & _).
  exists self'. split; [exact Hrun|].
  assert (Hpanes : _getPanes self' = _getPanes self).
  { rewrite !getPanes_flat.
    destruct (decide (PLOTTED ∈ (tabWidget self).*1)) as [Hin|Hnot].
    - destruct (first_plotted_split _ Hin) as (pre & old & suf & Htabs & Hnot).
      rewrite (Hfound pre old suf Htabs Hnot), Htabs.
      rewrite !map_app. simpl. f_equal. f_equal.
      unfold tab_panes. simpl. now destruct old.
    - rewrite (Habsent Hnot), map_app, concat_app. simpl.
      now rewrite app_nil_r. }
  split; [exact Hpanes|]. unfold _getTableViews. now rewrite Hpanes.
Qed.

Lemma fold_add_total (panes : list LineListPane) (n : Z) :
  fold_left Z.add
    (map (fun pane => len (selectedRows (table_view pane))) panes) n
  = n + selected_total panes.
Proof.
  revert n. induction panes as [|pane panes IH]; intros n; simpl; [lia|].
  rewrite IH. lia.
Qed.

(** X14: [_countSelections] raises [TypeError] when the window has no
    pane, because [functools.reduce] is given an empty list and no
    initial value.  With at least one pane it writes the total number of
    selected rows on the label, in black below 150 and in red from 150
    on, and leaves the tabs alone. *)
Theorem countSelections_total (self : WindowWidgets) :
  (_getPanes self = [] -> _countSelections self = Raise TypeError)
  /\ (_getPanes self <> [] ->
      exists self',
        _countSelections self = Ok self'
        /\ tabWidget self' = tabWidget self
        /\ label_text (lines_selected_label self')
           = pretty (selected_total (_getPanes self))
        /\ styleSheet (lines_selected_label self')
           = if selected_total (_getPanes self) <? 150
             then "color:black" else "color:red").
Proof.
  unfold _countSelections. split.
  - now intros ->.
  - destruct (_getPanes self) as [|pane panes]; [congruence|]. intros _.
    simpl. rewrite fold_add_total. eexists. split; [reflexivity|]. simpl.
    split; [reflexivity|]. split; [reflexivity|].
    unfold NLINES_WARN.
    now destruct (_ <? 150).
Qed.

End PlottedTab.

(** ** Export *)

Lemma endswith_spec (s suffix : string) :
  endswith s suffix = true <-> exists stem, s = stem +:+ suffix.
Proof.
  split.
  - induction s as [|c s IH]; cbn [endswith].
    + destruct (String.eqb_spec "" suffix) as [<-|_]; [|discriminate].
      intros _. now exists "".
    + destruct (String.eqb_spec (String c s) suffix) as [<-|_].
      * intros _. now exists "".
      * intros Hend. destruct (IH Hend) as [stem ->].
        now exists (String c stem).
  - intros [stem ->]. induction stem as [|c stem IH].
    + change ("" +:+ suffix) with suffix.
      destruct suffix; cbn [endswith]; now rewrite String.eqb_refl.
    + change (String c stem +:+ suffix) with (String c (stem +:+ suffix)).
      cbn [endswith]. now destruct (String.eqb _ suffix).
Qed.

Section ExportLemmas.

Context `{PyFloat}.
Implicit Types (table : list (string * list cell)) (name : string).

Lemma filter_other_names table name :
  name ∉ table_colnames table ->
  filter (fun column => column.1 <> name) table = table.
Proof.
  unfold table_colnames.
  induction table as [|column table IH]; intros Hnot; [reflexivity|].
  rewrite fmap_cons in Hnot. apply not_elem_of_cons in Hnot as [Hne Hnot].
  rewrite filter_cons_True by congruence. now rewrite IH.
Qed.

(** With distinct column names, removing the named column leaves the
    other columns, in order. *)
Lemma remove_column_ok table name :
  NoDup (table_colnames table) ->
  name ∈ table_colnames table ->
  remove_column table name
  = Ok (filter (fun column => column.1 <> name) table).
Proof.
  unfold remove_column, table_colnames.
  induction table as [|column table IH]; intros Hdup Hin.
  - now apply elem_of_nil in Hin.
  - rewrite fmap_cons in Hdup, Hin. apply NoDup_cons in Hdup as [Hfresh Hdup].
    simpl. destruct (decide (column.1 = name)) as [Heq|Hne].
    + simpl. rewrite filter_cons_False by tauto.
      rewrite filter_other_names; [reflexivity|]. now rewrite <- Heq.
    + apply elem_of_cons in Hin as [Heq|Hin]; [congruence|].
      specialize (IH Hdup Hin).
      destruct (list_find _ table) as [[i x]|]; [|discriminate IH].
      injection IH as IH. simpl.
      rewrite filter_cons_True by assumption.
      f_equal. f_equal. exact IH.
Qed.

Lemma remove_step_ok table name :
  NoDup (table_colnames table) ->
  (if bool_decide (name ∈ table_colnames table)
   then remove_column table name
   else mret table)
  = Ok (filter (fun column => column.1 <> name) table).
Proof.
  intros Hdup. destruct (decide (name ∈ table_colnames table)) as [Hin|Hnot].
  - rewrite bool_decide_eq_true_2 by assumption.
    now apply remove_column_ok.
  - rewrite bool_decide_eq_false_2 by assumption.
    now rewrite filter_other_names.
Qed.

Lemma NoDup_filter_names table (P : string * list cell -> Prop)
  `{forall column, Decision (P column)} :
  NoDup (table_colnames table) -> NoDup (table_colnames (filter P table)).
Proof.
  unfold table_colnames.
  induction table as [|column table IH]; intros Hdup; [constructor|].
  rewrite fmap_cons in Hdup. apply NoDup_cons in Hdup as [Hfresh Hdup].
  destruct (decide (P column)).
  - rewrite filter_cons_True by assumption. rewrite fmap_cons.
    apply NoDup_cons. split; [|now apply IH].
    intros Hin. apply Hfresh.
    apply list_elem_of_fmap in Hin as (c & -> & Hc).
    apply list_elem_of_fmap. exists c. split; [reflexivity|].
    now apply list_elem_of_filter in Hc as [_ Hc].
  - rewrite filter_cons_False by assumption. now apply IH.
Qed.

Lemma for_each_invariant {S A : Type} (I : S -> Prop)
  (body : S -> A -> result S) (g : S -> A -> S) (xs : list A) (st : S) :
  (forall st x, I st -> body st x = Ok (g st x) /\ I (g st x)) ->
  I st ->
  for_each body xs st = Ok (fold_left g xs st).
Proof.
  intros Hstep. revert st.
  induction xs as [|x xs IH]; intros st Hst; [reflexivity|].
  destruct (Hstep st x Hst) as [Hrun Hnext].
  cbn [for_each fold_left]. rewrite Hrun. simpl. now apply IH.
Qed.

Lemma fold_filter_names (names : list string) table :
  fold_left
    (fun t name => filter (fun column : string * list cell => column.1 <> name) t)
    names table
  = filter (fun column => column.1 ∉ names) table.
Proof.
  revert table. induction names as [|name names IH]; intros table.
  - simpl. induction table as [|column table IHt]; [reflexivity|].
    rewrite filter_cons_True by apply not_elem_of_nil.
    now f_equal.
  - simpl. rewrite IH, list_filter_filter. apply list_filter_iff.
    intros column. rewrite not_elem_of_cons. tauto.
Qed.

Lemma remove_columns_ok (columns_to_remove : list string) table :
  NoDup (table_colnames table) ->
  remove_columns columns_to_remove table
  = Ok (filter (fun column => column.1 ∉ columns_to_remove) table).
Proof.
  intros Hdup. unfold remove_columns.
  rewrite (for_each_invariant (fun t => NoDup (table_colnames t)) _
             (fun t name => filter (fun column => column.1 <> name) t)).
  - now rewrite fold_filter_names.
  - intros t name Ht. split.
    + now apply remove_step_ok.
    + now apply NoDup_filter_names.
  - exact Hdup.
Qed.

End ExportLemmas.

(** X15: [_export_to_file] writes a file only when it is called without
    a file name and a pane of plotted lines has been recorded.  The name
    it writes to always ends in ".ecsv": the name chosen in the save
    dialog when that already ends so, and otherwise that name with
    ".ecsv" added, so that an empty chosen name gives ".ecsv". *)
Theorem export_file_name `{PyFloat} (columns_to_remove : list string)
  (chosen : string) (table : PlottedLinesPane -> Table)
  (self : WindowWidgets) (file_name : option string)
  (written : string * Table) :
  _export_to_file columns_to_remove chosen table self file_name
  = Ok (Some written) ->
  file_name = None
  /\ is_Some (_plotted_lines_pane self)
  /\ (exists stem, written.1 = stem +:+ ".ecsv")
  /\ ((exists stem, chosen = stem +:+ ".ecsv") -> written.1 = chosen)
  /\ (~ (exists stem, chosen = stem +:+ ".ecsv") ->
      written.1 = chosen +:+ ".ecsv")
  /\ (chosen = "" -> written.1 = ".ecsv").
Proof.
  unfold _export_to_file.
  destruct file_name as [given|]; [discriminate|].
  destruct (_plotted_lines_pane self) as [pane|]; [|discriminate].
  destruct (remove_columns columns_to_remove (table pane)) as [out|e];
    [|discriminate].
  simpl. intros [= <-]. simpl.
  split; [reflexivity|]. split; [eauto|].
  destruct (endswith chosen ".ecsv") eqn:Hend; simpl.
  - apply endswith_spec in Hend. split_and!; try tauto.
    intros ->. destruct Hend as [stem Hstem].
    destruct stem; discriminate Hstem.
  - assert (Hno : ~ (exists stem, chosen = stem +:+ ".ecsv")).
    { intros Hstem. apply endswith_spec in Hstem. congruence. }
    split_and!; [eauto | tauto | tauto | now intros ->].
Qed.

Lemma export_file_name_witness :
  _export_to_file WindowExamples.columns_to_remove "lines"
    (fun _ => WindowExamples.plotted_table) WindowExamples.widgets None
  = Ok (Some ("lines.ecsv", WindowExamples.exported_table))
  /\ exists stem, "lines.ecsv" = stem +:+ ".ecsv".
Proof.
  split; [reflexivity|].
  apply (@export_file_name Decimal.decimal_float
           WindowExamples.columns_to_remove "lines"
           (fun _ => WindowExamples.plotted_table) WindowExamples.widgets
           None ("lines.ecsv", WindowExamples.exported_table)).
  reflexivity.
Defined.

(** X16: when the columns of the plotted lines' table have distinct
    names, the export succeeds and the table it writes holds exactly the
    columns whose name is not in [columns_to_remove], with their data and
    in their original order; a name to remove that the table lacks, or
    that is listed twice, is passed over without a [KeyError]. *)
Theorem export_removes_columns `{PyFloat} (columns_to_remove : list string)
  (chosen : string) (table : PlottedLinesPane -> Table)
  (self : WindowWidgets) (pane : PlottedLinesPane) :
  _plotted_lines_pane self = Some pane ->
  NoDup (table_colnames (table pane)) ->
  exists file_name,
    _export_to_file columns_to_remove chosen table self None
    = Ok (Some (file_name,
                filter (fun column => column.1 ∉ columns_to_remove)
                  (table pane))).
Proof.
  intros Hpane Hdup. unfold _export_to_file. rewrite Hpane.
  rewrite (remove_columns_ok columns_to_remove (table pane) Hdup). simpl.
  eauto.
Qed.

Lemma export_removes_columns_witness :
  exists file_name,
    _export_to_file WindowExamples.columns_to_remove "lines"
      (fun _ => WindowExamples.plotted_table) WindowExamples.widgets None
    = Ok (Some (file_name, WindowExamples.exported_table)).
Proof.
  apply (@export_removes_columns Decimal.decimal_float
           WindowExamples.columns_to_remove "lines"
           (fun _ => WindowExamples.plotted_table) WindowExamples.widgets
           WindowExamples.plotted_pane eq_refl).
  repeat constructor; rewrite ?elem_of_cons, ?elem_of_nil;
    intuition discriminate.
Defined.

(** ** The dialog and the stored range *)

(** X17: whatever range was stored before, when
    [_get_waverange_from_dialog] ends without raising the stored range is
    absent on both sides or present on both, never on one side only; it
    is absent on both sides whenever the dialog is not accepted, so
    rejecting the dialog forgets a range stored earlier. *)
Theorem waverange_after_dialog `{PyFloat} (WAVELENGTH_COLUMN : string)
  (extract_range : LineList -> waverange -> result LineList)
  (format_2f : pyfloat -> string) (acceptable : string -> bool)
  (ui_label : QLabel) (exec_ : Dialog -> bool * string * string)
  (_find_wavelength_range : Quantity * Quantity)
  (self : LineListsWindow) (wave_range : waverange) (line_list : LineList) :
  let after :=
    _get_waverange_from_dialog WAVELENGTH_COLUMN extract_range format_2f
      acceptable ui_label exec_ _find_wavelength_range self wave_range
      line_list in
  after.2 = Ok tt ->
  is_present after.1.1 = is_present after.1.2
  /\ ((forall dialog, (exec_ dialog).1.1 = false) -> after.1 = (None, None)).
Proof.
  intros after. subst after. unfold _get_waverange_from_dialog.
  set (shown := match wave_range with
                | (Some amin, Some amax) => (amin, amax)
                | _ => _find_wavelength_range
                end).
  destruct (_build_waverange_dialog _ _ _ _ _ _ _ _ _) as [wrange|e] eqn:Hrun;
    [|discriminate].
  intros _. simpl. unfold _build_waverange_dialog in Hrun.
  destruct (_compute_nlines_in_waverange _ _ _ _ _ _ _) as [label|e];
    [|discriminate Hrun].
  simpl in Hrun.
  destruct (exec_ _) as [[accepted user_min] user_max] eqn:Hexec.
  split.
  - destruct accepted.
    + destruct wrange as [amin amax].
      now apply range_from_textfields_shape in Hrun.
    + now injection Hrun as <-.
  - intros Hreject. specialize (Hreject (mkDialog
      (line_edit acceptable (format_2f (value shown.1)))
      (line_edit acceptable (format_2f (value shown.2))) label)).
    rewrite Hexec in Hreject. simpl in Hreject. subst accepted.
    now injection Hrun as <-.
Qed.

Lemma waverange_after_dialog_witness :
  (_get_waverange_from_dialog "Wavelength" Examples.extract_range
     Decimal.str WindowExamples.acceptable (mkLabel "" "")
     WindowExamples.exec_ WindowExamples.plot_range Examples.window
     (None, None) Examples.three_lines).2 = Ok tt
  /\ is_present
       (_get_waverange_from_dialog "Wavelength" Examples.extract_range
          Decimal.str WindowExamples.acceptable (mkLabel "" "")
          WindowExamples.exec_ WindowExamples.plot_range Examples.window
          (None, None) Examples.three_lines).1.1
     = is_present
         (_get_waverange_from_dialog "Wavelength" Examples.extract_range
            Decimal.str WindowExamples.acceptable (mkLabel "" "")
            WindowExamples.exec_ WindowExamples.plot_range Examples.window
            (None, None) Examples.three_lines).1.2.
Proof.
  split; [reflexivity|].
  apply (@waverange_after_dialog Decimal.decimal_float "Wavelength"
           Examples.extract_range Decimal.str WindowExamples.acceptable
           (mkLabel "" "") WindowExamples.exec_ WindowExamples.plot_range
           Examples.window (None, None) Examples.three_lines).
  reflexivity.
Defined.

(** ** Views of the line lists *)

Section ViewLemmas.

Context `{PyFloat}.
Variable Quantity_bool : Quantity -> bool.
Variable extract_range : LineList -> waverange -> result LineList.

Lemma fold_append_each {A : Type} (l acc : list A) :
  fold_left (fun info x => info ++ [x]) l acc = acc ++ l.
Proof.
  revert acc. induction l as [|x l IH]; intros acc; simpl.
  - now rewrite app_nil_r.
  - rewrite IH. now rewrite <- app_assoc.
Qed.

Lemma build_GUI_comments (h : heap) (linelist : loc) :
  LineListPane_build_GUI h linelist
  = match meta_comments (h linelist) with
    | Some comments => Ok comments
    | None => Raise KeyError
    end.
Proof.
  unfold LineListPane_build_GUI.
  destruct (meta_comments (h linelist)); [|reflexivity].
  now rewrite fold_append_each.
Qed.

(** After the range step, [_build_view] on a list is [show_list]. *)
Lemma build_view_shows (st : Store) (self : WindowWidgets)
  (line_list : loc) (index : Z) :
  (table_model ← __init__ (objects st) line_list;
   if 0 <? rowCount (objects st) table_model then
     '(pane, table_view) ←
       _createLineListPane (objects st) line_list table_model;
     mret (st,
           mkWidgets
             (QTabWidget.insertTab (tabWidget self) index
                (LineSets (QTabWidget.addTab [] pane "Original"))
                (getName (objects st) table_model))
             (_plotted_lines_pane self) (lines_selected_label self),
           Some line_list)
   else mret (st, self, None))
  = show_list st self line_list index.
Proof.
  unfold show_list, has_rows. rewrite init_ok. simpl.
  unfold rowCount. simpl.
  destruct (rows (objects st line_list)) as [|r rs] eqn:Hrows; [reflexivity|].
  assert (Hpos : (0 <? len (r :: rs)) = true)
    by (apply Z.ltb_lt; unfold len; simpl; lia).
  rewrite Hpos. unfold _createLineListPane, LineListPane_init.
  rewrite build_GUI_comments.
  destruct (meta_comments (objects st line_list)) as [comments|] eqn:Hmeta;
    [|reflexivity].
  simpl. unfold original_tab, getName. simpl.
  rewrite ?Hrows, ?Hmeta. reflexivity.
Qed.

Lemma build_view_unfiltered (st : Store) (self : WindowWidgets)
  (line_list : loc) (index : Z) (waverange : waverange) :
  truthy Quantity_bool waverange.1 && truthy Quantity_bool waverange.2
  = false ->
  _build_view Quantity_bool extract_range st self (Some line_list) index
    waverange
  = show_list st self line_list index.
Proof.
  intros Hfalse. unfold _build_view, _build_view_range. rewrite Hfalse.
  simpl. apply build_view_shows.
Qed.

Lemma build_view_filtered (st : Store) (self : WindowWidgets)
  (line_list : loc) (index : Z) (waverange : waverange)
  (extracted : LineList) :
  truthy Quantity_bool waverange.1 && truthy Quantity_bool waverange.2
  = true ->
  extract_range (objects st line_list) waverange = Ok extracted ->
  _build_view Quantity_bool extract_range st self (Some line_list) index
    waverange
  = show_list (new_object st extracted).1 self
      (new_object st extracted).2 index.
Proof.
  intros Htrue Hextract. unfold _build_view, _build_view_range.
  rewrite Htrue, Hextract. simpl. apply build_view_shows.
Qed.

End ViewLemmas.

Section ViewTheorems.

Context `{PyFloat}.
Implicit Types (tabs : list (string * page)) (st : Store).

Lemma insertTab_inserted tabs (index : Z) (tab : string * page) :
  inserted tabs index tab (QTabWidget.insertTab tabs index tab.2 tab.1).
Proof.
  unfold inserted, QTabWidget.insertTab. destruct tab as [label pg]. simpl.
  destruct (QTabWidget.validIndex tabs index) eqn:Hvalid.
  - exists (take (Z.to_nat index) tabs), (drop (Z.to_nat index) tabs).
    split; [now rewrite take_drop|]. split; [reflexivity|].
    split; [|discriminate]. intros _.
    unfold QTabWidget.validIndex, QTabWidget.count in Hvalid.
    apply andb_prop in Hvalid as [Hlo Hhi].
    apply Z.leb_le in Hlo. apply Z.ltb_lt in Hhi.
    unfold len in *. rewrite length_take. lia.
  - exists tabs, []. rewrite app_nil_r. now split_and!.
Qed.

Lemma show_list_spec st (self : WindowWidgets) (line_list : loc) (index : Z) :
  shows st self line_list index (show_list st self line_list index).
Proof.
  unfold shows, show_list, has_rows.
  destruct (rows (objects st line_list)) as [|r rs] eqn:Hrows.
  - split_and!; [reflexivity | congruence | congruence].
  - destruct (meta_comments (objects st line_list)) as [comments|] eqn:Hmeta.
    + split_and!; [discriminate | discriminate |].
      intros _ _. eexists. split; [reflexivity|]. simpl.
      split_and!; try reflexivity. apply insertTab_inserted.
    + split_and!; [discriminate | reflexivity |].
      intros _ [c Hc]. discriminate Hc.
Qed.

(** X18: [_build_view] shows the list it is given unless both bounds of
    the range are true values; then it shows the list returned by the
    source's [extract_range], a new object that leaves the lists already
    on the heap as they were, and an error of the extraction is raised
    on.  If the list shown has no rows, no tab is added and [None] is
    returned.  If it has rows and its metadata has no comments, building
    the pane raises [KeyError].  Otherwise exactly one tab is inserted, at
    [index] when that is a valid index and at the end when not, named
    after the list and holding the pane "Original" on its model, and the
    list shown is returned.  Given [None] for a list, it raises
    [AttributeError] when both bounds are true values and [TypeError]
    when not. *)
Theorem build_view_effect (Quantity_bool : Quantity -> bool)
  (extract_range : LineList -> waverange -> result LineList)
  st (self : WindowWidgets) (line_list : loc) (index : Z)
  (waverange : waverange) :
  let both :=
    truthy Quantity_bool waverange.1 && truthy Quantity_bool waverange.2 in
  let run :=
    _build_view Quantity_bool extract_range st self (Some line_list) index
      waverange in
  let run_none :=
    _build_view Quantity_bool extract_range st self None index waverange in
  (both = false -> shows st self line_list index run)
  /\ (both = true ->
      forall extracted,
        extract_range (objects st line_list) waverange = Ok extracted ->
        exists st',
          objects st' (next st) = extracted
          /\ (forall l, l <> next st -> objects st' l = objects st l)
          /\ shows st' self (next st) index run)
  /\ (both = true ->
      forall e,
        extract_range (objects st line_list) waverange = Raise e ->
        run = Raise e)
  /\ (both = true -> run_none = Raise AttributeError)
  /\ (both = false -> run_none = Raise TypeError).
Proof.
  intros both run run_none. subst both run run_none. simpl. split_and!.
  - intros Hfalse.
    rewrite (build_view_unfiltered _ _ _ _ _ _ _ Hfalse).
    apply show_list_spec.
  - intros Htrue extracted Hextract.
    rewrite (build_view_filtered _ _ _ _ _ _ _ _ Htrue Hextract).
    exists (new_object st extracted).1. simpl. unfold heap_set.
    split; [now rewrite Nat.eqb_refl|]. split.
    + intros l Hl. now rewrite (proj2 (Nat.eqb_neq l (next st)) Hl).
    + apply (show_list_spec (new_object st extracted).1 self (next st) index).
  - intros Htrue e Hextract. unfold _build_view, _build_view_range.
    now rewrite Htrue, Hextract.
  - intros Htrue. unfold _build_view, _build_view_range. now rewrite Htrue.
  - intros Hfalse. unfold _build_view, _build_view_range. now rewrite Hfalse.
Qed.

Lemma zip_range_cons {A : Type} (x : A) (xs : list A) (k : Z) :
  zip (x :: xs) (seqZ k (len (x :: xs)))
  = (x, k) :: zip xs (seqZ (k + 1) (len xs)).
Proof.
  rewrite seqZ_cons by (unfold len; simpl; lia). simpl.
  do 3 f_equal; unfold len; simpl; lia.
Qed.

Section Loop.

Variable Quantity_bool : Quantity -> bool.
Variable extract_range : LineList -> waverange -> result LineList.

(** The body of the loop of [_buildViews]. *)
Let body (state : Store * WindowWidgets) (item : option loc * Z)
  : result (Store * WindowWidgets) :=
  let '(st, self) := state in
  let '(linelist, index) := item in
  '(st, self, _) ←
    _build_view Quantity_bool extract_range st self linelist index
      (None, None);
  mret (st, self).

(** The tabs of the lists with rows among the entries. *)
Let tabs_of st (entries : list (option loc)) : list (string * page) :=
  map (original_tab (objects st))
    (filter (fun l => has_rows (objects st) l) (omap id entries)).

Lemma tabs_of_one st (l : loc) :
  tabs_of st [Some l]
  = if has_rows (objects st) l then [original_tab (objects st) l] else [].
Proof.
  unfold tabs_of. cbn [omap list_omap id].
  destruct (has_rows (objects st) l) eqn:Hrows.
  - rewrite filter_cons_True by now rewrite Hrows. reflexivity.
  - rewrite filter_cons_False by now rewrite Hrows. reflexivity.
Qed.

Lemma tabs_of_cons st (l : loc) (entries : list (option loc)) :
  tabs_of st (Some l :: entries) = tabs_of st [Some l] ++ tabs_of st entries.
Proof.
  rewrite tabs_of_one. unfold tabs_of. cbn [omap list_omap id].
  destruct (has_rows (objects st) l) eqn:Hrows.
  - rewrite filter_cons_True by now rewrite Hrows. reflexivity.
  - rewrite filter_cons_False by now rewrite Hrows. reflexivity.
Qed.

Lemma len_tabs_of_one st (l : loc) : len (tabs_of st [Some l]) <= 1.
Proof.
  rewrite tabs_of_one.
  destruct (has_rows (objects st) l); unfold len; simpl; lia.
Qed.

Lemma buildViews_step st (l : loc) (k : Z) tabs
  (pane : option PlottedLinesPane) (label : QLabel) :
  viewable (objects st) (Some l) -> len tabs <= k ->
  body (st, mkWidgets tabs pane label) (Some l, k)
  = Ok (st, mkWidgets (tabs ++ tabs_of st [Some l]) pane label).
Proof.
  intros (l' & [= <-] & Hmeta) Hk. rewrite tabs_of_one. unfold body.
  rewrite build_view_unfiltered by reflexivity.
  unfold show_list.
  destruct (has_rows (objects st) l) eqn:Hrows.
  - destruct (Hmeta eq_refl) as [comments Hcomments]. rewrite Hcomments.
    assert (Hinvalid : QTabWidget.validIndex tabs k = false).
    { unfold QTabWidget.validIndex, QTabWidget.count.
      apply andb_false_intro2. apply Z.ltb_ge. lia. }
    cbn [mbind result_bind bind mret result_ret tabWidget
         _plotted_lines_pane lines_selected_label].
    unfold QTabWidget.insertTab. rewrite Hinvalid.
    now destruct (original_tab (objects st) l).
  - cbn [mbind result_bind bind mret result_ret]. now rewrite app_nil_r.
Qed.

(** Over viewable entries the loop appends one tab per list with rows,
    when every index is at or beyond the number of tabs then present. *)
Lemma buildViews_loop st (entries : list (option loc)) (k : Z) tabs
  (pane : option PlottedLinesPane) (label : QLabel) :
  Forall (viewable (objects st)) entries -> len tabs <= k ->
  for_each body (zip entries (seqZ k (len entries)))
    (st, mkWidgets tabs pane label)
  = Ok (st, mkWidgets (tabs ++ tabs_of st entries) pane label).
Proof.
  revert k tabs.
  induction entries as [|entry entries IH]; intros k tabs Hall Hk.
  - simpl. unfold tabs_of. simpl. now rewrite app_nil_r.
  - apply Forall_cons in Hall as [Hentry Hall].
    destruct Hentry as (l & -> & Hmeta).
    rewrite zip_range_cons. cbn [for_each].
    rewrite buildViews_step; [|now exists l|assumption].
    cbn [bind]. pose proof (len_tabs_of_one st l) as Hone.
    rewrite IH; [|assumption|rewrite len_app; lia].
    now rewrite (tabs_of_cons st l entries), app_assoc.
Qed.

(** The loop stops with the error of the first entry on which
    [_build_view] raises. *)
Lemma buildViews_loop_raises st (pre rest : list (option loc))
  (bad : option loc) (e : exn) (k : Z) tabs
  (pane : option PlottedLinesPane) (label : QLabel) :
  Forall (viewable (objects st)) pre -> len tabs <= k ->
  (forall (self : WindowWidgets) (index : Z),
     _build_view Quantity_bool extract_range st self bad index (None, None)
     = Raise e) ->
  for_each body
    (zip (pre ++ bad :: rest) (seqZ k (len (pre ++ bad :: rest))))
    (st, mkWidgets tabs pane label)
  = Raise e.
Proof.
  revert k tabs. induction pre as [|entry pre IH]; intros k tabs Hall Hk Hbad.
  - simpl app. rewrite zip_range_cons. cbn [for_each]. unfold body at 1.
    now rewrite Hbad.
  - apply Forall_cons in Hall as [Hentry Hall].
    destruct Hentry as (l & -> & Hmeta).
    change ((Some l :: pre) ++ bad :: rest)
      with (Some l :: (pre ++ bad :: rest)).
    rewrite zip_range_cons. cbn [for_each].
    rewrite buildViews_step; [|now exists l|assumption].
    cbn [bind]. pose proof (len_tabs_of_one st l) as Hone.
    apply IH; [assumption | rewrite len_app; lia | assumption].
Qed.

(** X19: on a window without tabs, and when every entry of the list is a
    line list that has comments in its metadata or has no rows,
    [_buildViews] makes one tab for each line list that has rows, in the
    order of the lists and named after them, makes no tab for a list
    without rows, and, when at least one tab was made, adds a last tab
    "Plotted" holding a bare widget; the heap is left as it was.  When
    the first entry that is not so is [None], it raises [TypeError]; when
    it is a list with rows and without comments, it raises [KeyError]. *)
Theorem buildViews_tabs st (self : WindowWidgets)
  (window_linelists : list (option loc)) :
  tabWidget self = [] ->
  let run :=
    _buildViews Quantity_bool extract_range st self window_linelists in
  let shown :=
    map (original_tab (objects st))
      (filter (fun l => has_rows (objects st) l)
         (omap id window_linelists)) in
  (Forall (viewable (objects st)) window_linelists ->
   run = Ok (st,
             mkWidgets
               (match shown with
                | [] => []
                | _ :: _ => shown ++ [(PLOTTED, PlainWidget)]
                end)
               (_plotted_lines_pane self) (lines_selected_label self)))
  /\ (forall pre rest,
        window_linelists = pre ++ None :: rest ->
        Forall (viewable (objects st)) pre ->
        run = Raise TypeError)
  /\ (forall pre l rest,
        window_linelists = pre ++ Some l :: rest ->
        Forall (viewable (objects st)) pre ->
        rows (objects st l) <> [] ->
        meta_comments (objects st l) = None ->
        run = Raise KeyError).
Proof.
  intros Htabs run shown. subst run. destruct self as [tabs pane label].
  simpl in *. subst tabs. unfold _buildViews. fold body. split_and!.
  - intros Hall.
    rewrite (buildViews_loop st window_linelists 0 [] pane label Hall)
      by (unfold len; simpl; lia).
    simpl. fold (tabs_of st window_linelists).
    change (tabs_of st window_linelists) with shown.
    unfold QTabWidget.count.
    destruct shown as [|tab shown'] eqn:Hshown; [reflexivity|].
    assert (Hpos : (0 <? len (tab :: shown')) = true)
      by (apply Z.ltb_lt; unfold len; simpl; lia).
    rewrite Hpos. unfold QTabWidget.addTab, QTabWidget.insertTab.
    reflexivity.
  - intros pre rest -> Hall.
    rewrite (buildViews_loop_raises st pre rest None TypeError 0 [] pane
               label Hall); [reflexivity | unfold len; simpl; lia |].
    reflexivity.
  - intros pre l rest -> Hall Hrows Hmeta.
    rewrite (buildViews_loop_raises st pre rest (Some l) KeyError 0 [] pane
               label Hall); [reflexivity | unfold len; simpl; lia |].
    intros self index. rewrite build_view_unfiltered by reflexivity.
    unfold show_list, has_rows. rewrite Hmeta.
    destruct (rows (objects st l)); [congruence | reflexivity].
Qed.

End Loop.

End ViewTheorems.

Lemma buildViews_tabs_witness :
  tabWidget WindowExamples.no_tabs = []
  /\ exists self',
       _buildViews (fun _ => true) Examples.extract_range
         WindowExamples.store WindowExamples.no_tabs
         [Some 0%nat; Some 1%nat; Some 2%nat]
       = Ok (WindowExamples.store, self')
       /\ (tabWidget self').*1 = ["Atomic"; "Atomic"; "Plotted"].
Proof.
  split; [reflexivity|].
  destruct (@buildViews_tabs Decimal.decimal_float (fun _ => true)
              Examples.extract_range WindowExamples.store
              WindowExamples.no_tabs [Some 0%nat; Some 1%nat; Some 2%nat]
              eq_refl) as [Hrun _].
  eexists. split.
  - apply Hrun. repeat constructor; eexists; (split; [reflexivity|]);
      intros _; eexists; reflexivity.
  - reflexivity.
Defined.

(** ** Choosing a line list *)

Section SelectionTheorems.

Context `{PyFloat}.
Variable WAVELENGTH_COLUMN : string.
Variable extract_range : LineList -> waverange -> result LineList.
Variable format_2f : pyfloat -> string.
Variable acceptable : string -> bool.
Variable ui_label : QLabel.
Variable exec_ : Dialog -> bool * string * string.
Variable _find_wavelength_range : Quantity * Quantity.
Variable Quantity_bool : Quantity -> bool.

(** A dialog that is not accepted leaves no range. *)
Lemma dialog_rejected (self : LineListsWindow) (wave_range : waverange)
  (line_list : LineList) (after : waverange) :
  (forall dialog, (exec_ dialog).1.1 = false) ->
  _get_waverange_from_dialog WAVELENGTH_COLUMN extract_range format_2f
    acceptable ui_label exec_ _find_wavelength_range self wave_range
    line_list = (after, Ok tt) ->
  after = (None, None).
Proof.
  intros Hreject. unfold _get_waverange_from_dialog.
  set (shown := match wave_range with
                | (Some amin, Some amax) => (amin, amax)
                | _ => _find_wavelength_range
                end).
  destruct (_build_waverange_dialog _ _ _ _ _ _ _ _ _) as [wrange|e] eqn:Hrun;
    [|discriminate].
  intros [= <-]. unfold _build_waverange_dialog in Hrun.
  destruct (_compute_nlines_in_waverange _ _ _ _ _ _ _) as [label|e];
    [|discriminate Hrun].
  simpl in Hrun.
  specialize (Hreject (mkDialog
    (line_edit acceptable (format_2f (value shown.1)))
    (line_edit acceptable (format_2f (value shown.2))) label)).
  destruct (exec_ _) as [[accepted user_min] user_max].
  simpl in Hreject. subst accepted. now injection Hrun as <-.
Qed.

Lemma except_keeps_views (s : WindowState) (e : exn) :
  w_widgets (except_UnitConversionError s e).1 = w_widgets s
  /\ w_store (except_UnitConversionError s e).1 = w_store s
  /\ (except_UnitConversionError s e).2 <> Raise UnitConversionError.
Proof.
  unfold except_UnitConversionError.
  destruct e; simpl; split_and!; congruence.
Qed.

(** X20: [_lineList_selection_change] does nothing for an index of 0 or
    below.  For an index above 0 whose line list is found in the cache,
    a [UnitConversionError] never leaves the method, and when the dialog
    is not accepted no view is built: the tabs and the heap are as they
    were before. *)
Theorem selection_change_outcome (get_from_cache : Z -> result loc)
  (self : LineListsWindow) (s : WindowState) (index : Z) :
  let after :=
    _lineList_selection_change WAVELENGTH_COLUMN extract_range format_2f
      acceptable ui_label exec_ _find_wavelength_range Quantity_bool
      get_from_cache self s index in
  (index <= 0 -> after = (s, Ok tt))
  /\ (forall line_list,
        0 < index -> get_from_cache (index - 1) = Ok line_list ->
        after.2 <> Raise UnitConversionError
        /\ ((forall dialog, (exec_ dialog).1.1 = false) ->
            w_widgets after.1 = w_widgets s
            /\ w_store after.1 = w_store s
            /\ w_linelists after.1 = w_linelists s)).
Proof.
  intros after. subst after. unfold _lineList_selection_change. split.
  - intros Hindex. now rewrite (proj2 (Z.ltb_ge 0 index) Hindex).
  - intros line_list Hindex Hcache.
    rewrite (proj2 (Z.ltb_lt 0 index) Hindex), Hcache.
    destruct (_get_waverange_from_dialog _ _ _ _ _ _ _ _ _ _)
      as [wave_range outcome] eqn:Hdialog.
    destruct outcome as [[]|e].
    + split.
      * destruct (_ && _); [|simpl; congruence].
        destruct (_build_view _ _ _ _ _ _ _) as [[[st widgets] returned]|e];
          [simpl; congruence|].
        apply except_keeps_views.
      * intros Hreject.
        rewrite (dialog_rejected _ _ _ _ Hreject Hdialog). simpl.
        now split_and!.
    + split; [apply except_keeps_views|]. intros _.
      unfold except_UnitConversionError.
      destruct (is_UnitConversionError e); simpl; now split_and!.
Qed.

(** X21: when [_open_linelist_file] is called without a file name, the
    file dialog returns a name, the file gives a line list that counts as
    true and the range dialog leaves a range with two true bounds, the
    value returned by [_build_view] is appended to the plot window's line
    lists as it is: [None], with no tab added, when the extraction has no
    rows, and the extracted list, with its tab inserted at index 0, when
    it has rows and its metadata has comments.  When the extraction has
    rows and its metadata has no comments the method ends by raising
    [KeyError], with nothing appended and no tab added. *)
Theorem open_file_appends_view_result
  (get_from_file : Store -> string -> result (Store * option loc))
  (LineList_bool : LineList -> bool) (self : LineListsWindow)
  (s : WindowState) (name : string) (names : list string)
  (st : Store) (line_list : loc) (wave_range : waverange)
  (extracted : LineList) :
  get_from_file (w_store s) name = Ok (st, Some line_list) ->
  LineList_bool (objects st line_list) = true ->
  _get_waverange_from_dialog WAVELENGTH_COLUMN extract_range format_2f
    acceptable ui_label exec_ _find_wavelength_range self (w_wave_range s)
    (objects st line_list) = (wave_range, Ok tt) ->
  truthy Quantity_bool wave_range.1 && truthy Quantity_bool wave_range.2
  = true ->
  extract_range (objects st line_list) wave_range = Ok extracted ->
  let after :=
    _open_linelist_file WAVELENGTH_COLUMN extract_range format_2f acceptable
      ui_label exec_ _find_wavelength_range Quantity_bool get_from_file
      LineList_bool (Some (name :: names)) self s None in
  w_wave_range after.1 = wave_range
  /\ (rows extracted = [] ->
      after.2 = Ok tt
      /\ w_linelists after.1 = w_linelists s ++ [None]
      /\ w_widgets after.1 = w_widgets s)
  /\ (rows extracted <> [] -> is_Some (meta_comments extracted) ->
      after.2 = Ok tt
      /\ w_linelists after.1 = w_linelists s ++ [Some (next st)]
      /\ objects (w_store after.1) (next st) = extracted
      /\ inserted (tabWidget (w_widgets s)) 0
           (original_tab (objects (w_store after.1)) (next st))
           (tabWidget (w_widgets after.1)))
  /\ (rows extracted <> [] -> meta_comments extracted = None ->
      after.2 = Raise KeyError
      /\ w_linelists after.1 = w_linelists s
      /\ w_widgets after.1 = w_widgets s).
Proof.
  intros Hfile Hbool Hdialog Htrue Hextract after. subst after.
  unfold _open_linelist_file. rewrite Hfile, Hbool.
  cbn -[_build_view _get_waverange_from_dialog truthy].
  rewrite Hdialog, Htrue.
  cbn -[_build_view truthy new_object].
  rewrite (build_view_filtered _ _ _ _ _ _ _ _ Htrue Hextract).
  assert (Hobj : objects (new_object st extracted).1
                   (new_object st extracted).2 = extracted)
    by (simpl; unfold heap_set; now rewrite Nat.eqb_refl).
  destruct (show_list_spec (new_object st extracted).1 (w_widgets s)
              (new_object st extracted).2 0)
    as (Hempty & Hnometa & Hrows).
  rewrite Hobj in Hempty, Hnometa, Hrows.
  destruct (show_list (new_object st extracted).1 (w_widgets s)
              (new_object st extracted).2 0)
    as [[[st' widgets'] returned]|e] eqn:Hshow.
  - split; [reflexivity|]. split_and!.
    + intros Hnone. specialize (Hempty Hnone). injection Hempty as -> -> ->.
      now split_and!.
    + intros Hsome Hmeta.
      destruct (Hrows Hsome Hmeta) as (self' & Heq & _ & _ & Hins).
      injection Heq as -> -> ->.
      split; [reflexivity|]. split; [reflexivity|].
      split; [exact Hobj | exact Hins].
    + intros Hsome Hmeta. specialize (Hnometa Hsome Hmeta). discriminate.
  - split; [reflexivity|]. split_and!.
    + intros Hnone. specialize (Hempty Hnone). discriminate.
    + intros Hsome Hmeta.
      destruct (Hrows Hsome Hmeta) as (self' & Heq & _). discriminate.
    + intros Hsome Hmeta. specialize (Hnometa Hsome Hmeta).
      injection Hnometa as ->. now split_and!.
Qed.

End SelectionTheorems.

Lemma open_file_appends_view_result_witness :
  WindowExamples.get_from_file (w_store WindowExamples.state) "lines.yaml"
  = Ok (WindowExamples.store, Some 0%nat)
  /\ Examples.extract_range (objects WindowExamples.store 0%nat)
       WindowExamples.narrow_range = Ok Examples.empty
  /\ w_linelists
       (_open_linelist_file "Wavelength" Examples.extract_range Decimal.str
          WindowExamples.acceptable (mkLabel "" "")
          WindowExamples.exec_narrow WindowExamples.plot_range
          (fun _ => true) WindowExamples.get_from_file (fun _ => true)
          (Some ["lines.yaml"]) Examples.window WindowExamples.state
          None).1
     = [None].
Proof.
  split; [reflexivity|]. split; [reflexivity|].
  destruct (@open_file_appends_view_result Decimal.decimal_float
              "Wavelength" Examples.extract_range Decimal.str
              WindowExamples.acceptable (mkLabel "" "")
              WindowExamples.exec_narrow WindowExamples.plot_range
              (fun _ => true) WindowExamples.get_from_file (fun _ => true)
              Examples.window WindowExamples.state "lines.yaml" []
              WindowExamples.store 0%nat WindowExamples.narrow_range
              Examples.empty eq_refl eq_refl eq_refl eq_refl eq_refl)
    as (_ & Hnone & _).
  exact (proj1 (proj2 (Hnone eq_refl))).
Defined.
